(* ===== verification/_CoqProject ===== *)
-Q . S2P
Prelude.v
PyValue.v
Tables.v
Forms.v
Scoring.v
Spec.v
Refinement.v
Errors.v
Profile.v
Report.v
Flow.v
