(* ===== verification/Prelude.v ===== *)
(** * Human 2.0 Assessment Bot: a verification development

    The program is [src/human_2_0_assessment_bot.py], a Streamlit app.
    Its class [Human20AssessmentBot] walks a participant through five
    screens (welcome, basic information, biological, mental and
    financial assessment) and a results screen.  The answers are kept in
    [st.session_state.assessment_data] and the screen in
    [st.session_state.current_step]; [calculate_scores] turns the three
    answer dicts into four scores, [generate_ai_analysis] sends them with
    the answers to the OpenAI chat API, and [display_results] shows the
    scores, the analysis and three buttons.  [main] reruns on every
    interaction and dispatches on the step.

    ** Files, in dependency order, and what they model

    - [Prelude] (this file): percentages [pct] with the notation
      [%[q]] in [h20_scope], the [qlra] tactic (lra on rationals with
      literal divisions), the hint databases [h20] and [h20_rw], and the
      clamp [Qclamp] with its [Proper] instance.
    - [PyValue]: Python values ([VInt], [VFloat] as exact rationals,
      [VStr], [VList]), the exceptions ([KeyError], [TypeError],
      [ZeroDivisionError], [ValueError], [AttributeError]), the result
      monad [res] with [let*], the operators [+ - * /], [<], [min],
      [max] with CPython's rules, [d[k]], [d.get(k, v)] and dict
      literals ([dict_of], later keys win); the tactics [py_run] and
      [use_block] that evaluate a chain of [let*] symbolically.
    - [Tables]: the twelve lookup dicts of [calculate_scores] (lines
      488-556), verbatim; every value is in [0,100].
    - [Forms]: the option lists and slider ranges of the four forms
      (lines 118-476) verbatim, one record per form with what its
      widgets returned, the validity of a record ([*_form_ok]), the
      required-field test of line 156 and the dict each submit handler
      stores ([basic_info_data], [biological_data], [mental_data],
      [financial_data]).
    - [Scoring]: [calculate_scores] (lines 478-567) statement by
      statement in Python's evaluation order, one definition per comment
      block ([sleep_score] ... [money_mindset_score]), the clamp
      [clamp100] and [overall_score].
    - [Spec]: the specification's section 4.1 written independently of
      the code, on typed answers (one inductive type per scale, with its
      label and contribution), with [Finite] instances for the scales.
    - [Refinement]: the code refines the specification: on the dicts of
      valid forms [calculate_scores] returns the specification's scores
      of the decoded answers, with the wake-refreshed answer read as
      "Sometimes".
    - [Errors]: the keys each block reads, the table each categorical key
      is looked up in, frame lemmas per block, and the [KeyError]s of
      missing keys and unknown labels.
    - [Profile]: [__init__] (lines 21-85): the business profile with its
      [dict.get] defaults, the hard-coded API key, the category weights,
      the session defaults; the profile [main] passes (lines 726-736).
    - [Report]: [generate_ai_analysis] (lines 569-613): the prompt
      rendered with Python's [str]/[repr] and [.1f] formatting, the chat
      request, and the fallback message; the [.0f] formatting of the
      metrics.
    - [Flow]: the five screen handlers, [display_results] and one run of
      [main] ([main_run]) on an explicit session record; [interact] adds
      the run that [st.rerun()] starts; [run_events] is a sequence of
      interactions and [reachable] the sessions a participant can
      produce from a fresh one with values the widgets can return.

    ** What the theorems show

    - Scoring, for every input: a successful [calculate_scores] returns
      three scores in [0,100] and the 0.33/0.33/0.34 overall
      ([Scoring.calculate_scores_pct]); the wake-refreshed answer never
      changes the biological score ([Scoring.wake_refreshed_ignored]).
    - Refinement, for every valid submission: no exception and the
      specification's scores ([Refinement.calculate_scores_refines]); the
      clamps never act ([Refinement.calculate_scores_unclamped]).
    - Errors: a missing answer raises [KeyError] naming it, an unknown
      label raises [KeyError] naming the label, unread answers have no
      effect ([Errors.missing_answer_raises], [invalid_label_raises],
      [unread_answers_ignored]).
    - Report: with numeric scores and the prompt's answers present the
      analysis never raises, whatever the chat service does, and falls
      back to the message with the business e-mail on any failure
      ([Report.generate_ai_analysis_total]).
    - Flow: an inductive invariant of the reachable sessions (the data
      of each step is exactly that of the forms submitted so far,
      [Flow.reachable_flow_inv]); no exception from any reachable session
      ([reachable_no_exception]); six interactions reach the results with
      the specification's scores ([assessment_reaches_results]); the
      required-field check, the reset and the two other buttons
      ([missing_required_field_rejected], [reset_returns_to_welcome],
      [results_buttons]).

    ** Modelling choices

    - Floats are exact rationals: binary64 rounding of [/] and of the
      literals 0.33, 0.25, ... is not modelled; the bounds hold of the
      exact values.  [.0f]/[.1f] round half to even on the exact value.
    - The OpenAI service and the [repr] of a float are Section variables
      of [Report] and [Flow] ([chat], [float_repr]): every theorem holds
      for all of them.  No fuel is used: every definition is structural.
    - Dicts are [gmap]s: insertion order matters only for rendering the
      answer dicts in the prompt, where [dict_repr] takes the order the
      code inserts the keys in.
    - [st.session_state] is reduced to the two keys the app reads and
      writes; the widget keys Streamlit adds and the reset deletes are
      not modelled.  A widget returns a value of its domain ([event_ok]).
    - An exception ends a run with the session unchanged: no handler
      changes the session before its last fallible step.

    ** Not modelled

    - Presentation: [st.markdown] text, [st.metric] layout, the plotly
      radar chart and [st.set_page_config] (pure rendering).
    - The Streamlit runtime and the OpenAI client library, which the
      source only calls; the [openai.api_key] assignment (a library
      side effect) and the timeout the specification asks for, which the
      code does not set.
    - A [None] message content in the OpenAI response. *)

From Stdlib Require Import ZArith QArith Qminmax Lqa.

Declare Scope h20_scope.
Delimit Scope h20_scope with h20.

(** A score is a percentage: an exact rational in [0,100]. *)
Definition pct (q : Q) : Prop := (0 <= q /\ q <= 100)%Q.

Notation "'%[' q ']'" := (pct q) (at level 0, q at level 200) : h20_scope.
Open Scope h20_scope.

Create HintDb h20.
Create Rewrite HintDb h20_rw.

(** Division by a positive literal is multiplication by its inverse;
    [lra] only understands the second form. *)
Lemma Qdiv_pos_const (x : Q) (p : positive) : (x / (Zpos p # 1) = x * (1 # p))%Q.
Proof. reflexivity. Qed.

(** [inject_Z] commutes with the integer operations and the order. *)
Lemma inject_Z_minus (x y : Z) : inject_Z (x - y) = (inject_Z x - inject_Z y)%Q.
Proof. unfold Z.sub, Qminus. rewrite inject_Z_plus, inject_Z_opp. reflexivity. Qed.

Lemma inject_Z_le_iff (x y : Z) : (x <= y)%Z <-> (inject_Z x <= inject_Z y)%Q.
Proof. rewrite Zle_Qle. reflexivity. Qed.

Lemma inject_Z_lt_iff (x y : Z) : (x < y)%Z <-> (inject_Z x < inject_Z y)%Q.
Proof. rewrite Zlt_Qlt. reflexivity. Qed.

#[export] Hint Rewrite inject_Z_plus inject_Z_mult inject_Z_opp inject_Z_minus
  Qdiv_pos_const : h20_rw.

(** Turn integer bounds [lo <= z <= hi] in the context into bounds on
    [inject_Z z], so that [lra] can use them. *)
Ltac zbounds_to_Q :=
  repeat match goal with
  | H : (?a <= ?b)%Z |- _ =>
      apply inject_Z_le_iff in H
  | H : (?a <= ?b <= ?c)%Z |- _ =>
      let H1 := fresh in let H2 := fresh in
      destruct H as [H1 H2]; apply inject_Z_le_iff in H1, H2
  end.

(** Integer literals under [inject_Z] become rational literals. *)
Ltac qlits :=
  repeat match goal with
  | H : context [inject_Z (Zpos ?p)] |- _ => change (inject_Z (Zpos p)) with (Zpos p # 1) in H
  | H : context [inject_Z (Zneg ?p)] |- _ => change (inject_Z (Zneg p)) with (Zneg p # 1) in H
  | H : context [inject_Z Z0] |- _ => change (inject_Z Z0) with (0 # 1) in H
  | |- context [inject_Z (Zpos ?p)] => change (inject_Z (Zpos p)) with (Zpos p # 1)
  | |- context [inject_Z (Zneg ?p)] => change (inject_Z (Zneg p)) with (Zneg p # 1)
  | |- context [inject_Z Z0] => change (inject_Z Z0) with (0 # 1)
  end.

(** The arithmetic closer of the development: unfold [pct], normalise the
    casts and the divisions by literals, then [lra]. *)
Ltac qlra :=
  unfold pct in *;
  repeat match goal with H : _ /\ _ |- _ => destruct H end;
  zbounds_to_Q;
  qlits; autorewrite with h20_rw in *; qlits; lra.

Lemma pct_inject_Z (z : Z) : (0 <= z <= 100)%Z -> pct (inject_Z z).
Proof. intros; qlra. Qed.

Lemma pct_avg2 (a b : Q) : pct a -> pct b -> pct ((a + b) / 2).
Proof. intros; qlra. Qed.

Lemma pct_avg3 (a b c : Q) : pct a -> pct b -> pct c -> pct ((a + b + c) / 3).
Proof. intros; qlra. Qed.

Lemma pct_avg4 (a b c d : Q) :
  pct a -> pct b -> pct c -> pct d -> pct ((a + b + c + d) / 4).
Proof. intros; qlra. Qed.

Lemma Qle_bool_false (x y : Q) : Qle_bool x y = false -> (y < x)%Q.
Proof.
  intros H. apply Qnot_le_lt. intros Hle. apply Qle_bool_iff in Hle. congruence.
Qed.

Lemma Qle_bool_true (x y : Q) : Qle_bool x y = true -> (x <= y)%Q.
Proof. apply Qle_bool_iff. Qed.

(** Case analysis on a [Qle_bool] test, leaving the fact in the context. *)
Ltac case_Qle_bool x y :=
  let E := fresh "E" in
  destruct (Qle_bool x y) eqn:E;
  [apply Qle_bool_true in E | apply Qle_bool_false in E].

#[export] Hint Resolve pct_inject_Z pct_avg2 pct_avg3 pct_avg4 : h20.

(** [min(100, max(0, x))] on exact rationals. *)
Definition Qclamp (x : Q) : Q := Qmin 100 (Qmax 0 x).

#[export] Instance Qclamp_Proper : Proper (Qeq ==> Qeq) Qclamp.
Proof. intros x y Hxy. unfold Qclamp. rewrite Hxy. reflexivity. Qed.

Lemma Qclamp_pct (x : Q) : pct (Qclamp x).
Proof.
  unfold Qclamp, pct. split.
  - apply Q.min_glb; [lra | apply Q.le_max_l].
  - apply Q.le_min_l.
Qed.

(** Clamping a percentage changes nothing. *)
Lemma Qclamp_id (x : Q) : pct x -> (Qclamp x == x)%Q.
Proof.
  unfold pct, Qclamp. intros [H0 H1].
  rewrite Q.max_r by exact H0. rewrite Q.min_r by exact H1. reflexivity.
Qed.

Lemma Qclamp_le0 (x : Q) : (x <= 0)%Q -> (Qclamp x == 0)%Q.
Proof.
  unfold Qclamp. intros H. rewrite Q.max_l by exact H. rewrite Q.min_r by lra. reflexivity.
Qed.

Lemma Qclamp_ge100 (x : Q) : (100 <= x)%Q -> (Qclamp x == 100)%Q.
Proof.
  unfold Qclamp. intros H. rewrite Q.max_r by lra. rewrite Q.min_l by exact H. reflexivity.
Qed.

#[export] Hint Resolve Qclamp_pct : h20.

(** [pct] does not see the representation of a rational. *)
#[export] Instance pct_Proper : Proper (Qeq ==> iff) pct.
Proof. intros x y Hxy. unfold pct. rewrite Hxy. reflexivity. Qed.
