(* ===== verification/PyValue.v ===== *)
(** * Python values, exceptions and dictionaries

    The scoring code of [src/human_2_0_assessment_bot.py] manipulates
    dynamically typed Python values: the answers stored in
    [st.session_state.assessment_data] are ints (sliders), strings
    (select boxes) and lists of strings (multiselects), and the
    arithmetic of [calculate_scores] mixes ints and floats.  This file
    gives those values ([pyval]), the exceptions the code can raise
    ([exc]), a result monad ([res], with [let*] in [py_scope]), the
    binary operators [+ - * /] and the built-ins [min]/[max] with
    Python's rules, and dictionary subscripting [d[k]] and [d.get(k, v)].

    Floats are modelled by their exact rational value ([VFloat q]):
    binary64 rounding is not modelled. *)

From Stdlib Require Import ZArith QArith String.
From stdpp Require Import base gmap strings list.
From S2P Require Import Prelude.

(** ** Values *)

Inductive pyval : Type :=
| VInt (z : Z)
| VFloat (q : Q)
| VStr (s : string)
| VList (l : list string).

(** A value of [assessment_data]: a plain value or a nested dict
    (the three answer sub-records). *)
Inductive entry : Type :=
| EVal (v : pyval)
| EDict (d : gmap string pyval).

(** The exceptions the modelled code can raise. *)
Inductive exc : Type :=
| KeyError (k : pyval)
| TypeError
| ZeroDivisionError
| ValueError
| AttributeError.

(** ** The result monad *)

Definition res (A : Type) : Type := (exc + A)%type.

Definition ret {A} (a : A) : res A := inr a.
Definition raise {A} (e : exc) : res A := inl e.
Definition bind {A B} (c : res A) (k : A -> res B) : res B :=
  match c with inl e => inl e | inr a => k a end.

Declare Scope py_scope.
Delimit Scope py_scope with py.
Notation "'let*' x ':=' c 'in' k" := (bind c (fun x => k))
  (at level 10, x name, c at level 100, k at level 200) : py_scope.
Open Scope py_scope.

Lemma bind_ret {A B} (a : A) (k : A -> res B) : bind (ret a) k = k a.
Proof. reflexivity. Qed.

Lemma bind_inr {A B} (c : res A) (k : A -> res B) (b : B) :
  bind c k = inr b -> exists a, c = inr a /\ k a = inr b.
Proof. destruct c; simpl; [discriminate | eauto]. Qed.

Lemma bind_inl {A B} (c : res A) (k : A -> res B) (e : exc) :
  c = inl e -> bind c k = inl e.
Proof. intros ->. reflexivity. Qed.

#[export] Hint Rewrite @bind_ret : h20_rw.

(** Peel every successful [let*] in the context into its two halves. *)
Ltac inv_bind :=
  repeat match goal with
  | H : bind _ _ = inr _ |- _ =>
      let a := fresh "a" in let Ha := fresh "Ha" in
      apply bind_inr in H as (a & Ha & H); cbv beta in H
  end.

(** ** Numbers *)

(** The numeric value of an int or a float. *)
Definition num (v : pyval) : option Q :=
  match v with
  | VInt z => Some (inject_Z z)
  | VFloat q => Some q
  | _ => None
  end.

(** [s * n] for a string or a list: [n] copies, none when [n <= 0]. *)
Fixpoint repeat_app {A} (l : list A) (n : nat) : list A :=
  match n with O => [] | S n' => l ++ repeat_app l n' end.

Fixpoint str_repeat (s : string) (n : nat) : string :=
  match n with O => EmptyString | S n' => String.append s (str_repeat s n') end.

(** [a + b]: int + int is an int, a float operand gives a float,
    strings and lists concatenate, anything else is a TypeError. *)
Definition py_add (a b : pyval) : res pyval :=
  match a, b with
  | VInt x, VInt y => ret (VInt (x + y))
  | VStr x, VStr y => ret (VStr (String.append x y))
  | VList x, VList y => ret (VList (x ++ y))
  | _, _ =>
      match num a, num b with
      | Some x, Some y => ret (VFloat (x + y))
      | _, _ => raise TypeError
      end
  end.

Definition py_sub (a b : pyval) : res pyval :=
  match a, b with
  | VInt x, VInt y => ret (VInt (x - y))
  | _, _ =>
      match num a, num b with
      | Some x, Some y => ret (VFloat (x - y))
      | _, _ => raise TypeError
      end
  end.

(** [a * b]: numbers multiply; a string or a list times an int repeats. *)
Definition py_mul (a b : pyval) : res pyval :=
  match a, b with
  | VInt x, VInt y => ret (VInt (x * y))
  | VStr s, VInt n | VInt n, VStr s => ret (VStr (str_repeat s (Z.to_nat n)))
  | VList l, VInt n | VInt n, VList l => ret (VList (repeat_app l (Z.to_nat n)))
  | _, _ =>
      match num a, num b with
      | Some x, Some y => ret (VFloat (x * y))
      | _, _ => raise TypeError
      end
  end.

(** True division [a / b]: always a float, ZeroDivisionError on zero. *)
Definition py_div (a b : pyval) : res pyval :=
  match num a, num b with
  | Some x, Some y =>
      if Qeq_bool y 0 then raise ZeroDivisionError else ret (VFloat (x / y))
  | _, _ => raise TypeError
  end.

(** [a < b] on numbers.  Every comparison the code performs has an int
    literal on one side, so a non-number on the other side is the
    TypeError Python raises for an int/str or int/list comparison. *)
Definition py_lt (a b : pyval) : res bool :=
  match num a, num b with
  | Some x, Some y => ret (negb (Qle_bool y x))
  | _, _ => raise TypeError
  end.

(** [max(a, b)] keeps [a] unless [b > a]; [min(a, b)] keeps [a] unless
    [b < a] (CPython's [min_max] loop over the two arguments). *)
Definition py_max (a b : pyval) : res pyval :=
  let* gt := py_lt a b in ret (if gt then b else a).

Definition py_min (a b : pyval) : res pyval :=
  let* lt := py_lt b a in ret (if lt then b else a).

(** ** Dictionaries *)

(** [d[k]] on a dict with string keys. *)
Definition getitem (d : gmap string pyval) (k : string) : res pyval :=
  match d !! k with
  | Some v => ret v
  | None => raise (KeyError (VStr k))
  end.

(** [e[k]] on a value of [assessment_data]: only a dict can be
    subscripted by a string (a str or list needs an integer index, an
    int is not subscriptable). *)
Definition entry_getitem (e : entry) (k : string) : res pyval :=
  match e with
  | EDict d => getitem d k
  | EVal _ => raise TypeError
  end.

Definition data_getitem (d : gmap string entry) (k : string) : res entry :=
  match d !! k with
  | Some e => ret e
  | None => raise (KeyError (VStr k))
  end.

(** A dict literal [{k1: v1, ..., kn: vn}]: the pairs are inserted from
    left to right, so a repeated key keeps its last value. *)
Definition dict_of {V} (l : list (string * V)) : gmap string V :=
  foldl (fun m kv => <[kv.1 := kv.2]> m) ∅ l.

(** A lookup table is a dict literal from strings to ints.  [t[k]]
    with a value [k]: a list is unhashable, a number is never a key. *)
Abbreviation table := (gmap string Z).

Definition table_getitem (t : table) (k : pyval) : res pyval :=
  match k with
  | VStr s => match t !! s with Some n => ret (VInt n) | None => raise (KeyError k) end
  | VList _ => raise TypeError
  | _ => raise (KeyError k)
  end.

(** [t.get(k, default)]. *)
Definition table_get (t : table) (k : pyval) (default : Z) : res pyval :=
  match k with
  | VStr s => match t !! s with Some n => ret (VInt n) | None => ret (VInt default) end
  | VList _ => raise TypeError
  | _ => ret (VInt default)
  end.

(** ** Numeric evaluation *)

(** [v] is a Python number whose value is [q]. *)
Definition is_num (v : pyval) (q : Q) : Prop :=
  exists r, num v = Some r /\ (r == q)%Q.

#[export] Instance is_num_Proper : Proper (eq ==> Qeq ==> iff) is_num.
Proof.
  intros v ? <- q1 q2 Hq. unfold is_num.
  split; intros (r & Hr & Heq); exists r; split; auto; rewrite Heq; [|symmetry]; exact Hq.
Qed.

Lemma is_num_of (v : pyval) (q : Q) : num v = Some q -> is_num v q.
Proof. intros H. exists q. split; [exact H | reflexivity]. Qed.

#[export] Hint Resolve is_num_of : h20.

Lemma num_add (a b : pyval) (x y : Q) :
  num a = Some x -> num b = Some y ->
  exists v, py_add a b = ret v /\ num v = Some (x + y)%Q.
Proof.
  destruct a, b; simpl; intros Ha Hb; try discriminate; inversion Ha; inversion Hb; subst;
    eexists; split; try reflexivity; simpl; rewrite ?inject_Z_plus; reflexivity.
Qed.

Lemma num_sub (a b : pyval) (x y : Q) :
  num a = Some x -> num b = Some y ->
  exists v, py_sub a b = ret v /\ num v = Some (x - y)%Q.
Proof.
  destruct a, b; simpl; intros Ha Hb; try discriminate; inversion Ha; inversion Hb; subst;
    eexists; split; try reflexivity; simpl; rewrite ?inject_Z_minus; reflexivity.
Qed.

Lemma num_mul (a b : pyval) (x y : Q) :
  num a = Some x -> num b = Some y ->
  exists v, py_mul a b = ret v /\ num v = Some (x * y)%Q.
Proof.
  destruct a, b; simpl; intros Ha Hb; try discriminate; inversion Ha; inversion Hb; subst;
    eexists; split; try reflexivity; simpl; rewrite ?inject_Z_mult; reflexivity.
Qed.

Lemma num_div (a b : pyval) (x y : Q) :
  num a = Some x -> num b = Some y -> ~ (y == 0)%Q ->
  py_div a b = ret (VFloat (x / y)).
Proof.
  intros Ha Hb Hy. unfold py_div. rewrite Ha, Hb.
  destruct (Qeq_bool y 0) eqn:E; [apply Qeq_bool_iff in E; contradiction | reflexivity].
Qed.

(** [max(0, x)] and [min(100, x)]: the result is one of the two
    arguments, chosen by the order on the numeric values. *)
Lemma py_max_num (a b : pyval) (x y : Q) :
  num a = Some x -> num b = Some y ->
  py_max a b = ret (if negb (Qle_bool y x) then b else a).
Proof. intros Ha Hb. unfold py_max, py_lt. rewrite Ha, Hb. reflexivity. Qed.

Lemma py_min_num (a b : pyval) (x y : Q) :
  num a = Some x -> num b = Some y ->
  py_min a b = ret (if negb (Qle_bool x y) then b else a).
Proof. intros Ha Hb. unfold py_min, py_lt. rewrite Ha, Hb. reflexivity. Qed.

(** A successful comparison, hence a successful [min] or [max], needs
    two numbers. *)
Lemma py_lt_inr (a b : pyval) (t : bool) :
  py_lt a b = inr t -> exists x y, num a = Some x /\ num b = Some y.
Proof. unfold py_lt. destruct (num a), (num b); try discriminate. eauto. Qed.

Lemma entry_getitem_some (d : gmap string pyval) (k : string) (v : pyval) :
  d !! k = Some v -> entry_getitem (EDict d) k = ret v.
Proof. intros H. simpl. unfold getitem. rewrite H. reflexivity. Qed.

Lemma data_getitem_some (d : gmap string entry) (k : string) (e : entry) :
  d !! k = Some e -> data_getitem d k = ret e.
Proof. intros H. unfold data_getitem. rewrite H. reflexivity. Qed.

Lemma entry_getitem_none (d : gmap string pyval) (k : string) :
  d !! k = None -> entry_getitem (EDict d) k = raise (KeyError (VStr k)).
Proof. intros H. simpl. unfold getitem. rewrite H. reflexivity. Qed.

(** A nonzero literal divisor. *)
Ltac Qnonzero := let H := fresh in intro H; apply Qeq_bool_iff in H; discriminate H.

Ltac num_fact := first [eassumption | reflexivity].

(** Symbolic evaluation of a chain of [let*] whose values are known
    numbers: each step rewrites the head computation to [ret v] and
    records [num v]; table lookups are rewritten with the hints of the
    database [h20_lookup].  Stops at the first step it cannot run. *)
Create Rewrite HintDb h20_lookup.

Ltac py_step :=
  match goal with
  | |- context [bind (entry_getitem (EDict ?d) ?k) _] =>
      erewrite (entry_getitem_some d k) by reflexivity; cbn [bind ret fst snd]
  | |- context [bind (py_add ?a ?b) _] =>
      let v := fresh "v" in let E := fresh "E" in let N := fresh "N" in
      destruct (num_add a b _ _ ltac:(num_fact) ltac:(num_fact)) as (v & E & N);
      rewrite E; cbn [bind ret]
  | |- context [bind (py_sub ?a ?b) _] =>
      let v := fresh "v" in let E := fresh "E" in let N := fresh "N" in
      destruct (num_sub a b _ _ ltac:(num_fact) ltac:(num_fact)) as (v & E & N);
      rewrite E; cbn [bind ret]
  | |- context [bind (py_mul ?a ?b) _] =>
      let v := fresh "v" in let E := fresh "E" in let N := fresh "N" in
      destruct (num_mul a b _ _ ltac:(num_fact) ltac:(num_fact)) as (v & E & N);
      rewrite E; cbn [bind ret]
  | |- context [bind (py_div ?a ?b) _] =>
      rewrite (num_div a b _ _ ltac:(num_fact) ltac:(num_fact) ltac:(Qnonzero));
      cbn [bind ret]
  | |- context [bind (table_getitem _ _) _] =>
      progress autorewrite with h20_lookup; cbn [bind ret]
  | |- context [bind (table_get _ _ _) _] =>
      progress autorewrite with h20_lookup; cbn [bind ret]
  end.

Ltac py_run := repeat py_step.

(** The last step of a block: a division, or a lookup. *)
Ltac py_conclude :=
  lazymatch goal with
  | |- exists v, py_div ?a ?b = inr v /\ _ =>
      rewrite (num_div a b _ _ ltac:(num_fact) ltac:(num_fact) ltac:(Qnonzero));
      eexists; split; [reflexivity | eexists; split; [reflexivity |]]
  | |- exists v, table_getitem _ _ = inr v /\ _ =>
      autorewrite with h20_lookup; eexists; split; [reflexivity | eexists; split; [reflexivity |]]
  end.

(** Use a block already evaluated: [L] proves that the block returns a
    number equal to some value. *)
Ltac use_block L :=
  let v := fresh "v" in let E := fresh "E" in let r := fresh "r" in
  let N := fresh "N" in let Q := fresh "Q" in
  destruct L as (v & E & (r & N & Q)); rewrite E; cbn [bind ret].

Lemma entry_getitem_insert_ne (d : gmap string pyval) (k k' : string) (v : pyval) :
  k <> k' -> entry_getitem (EDict (<[k := v]> d)) k' = entry_getitem (EDict d) k'.
Proof. intros H. simpl. unfold getitem. rewrite lookup_insert_ne by exact H. reflexivity. Qed.

Lemma entry_getitem_insert_eq (d : gmap string pyval) (k : string) (v : pyval) :
  entry_getitem (EDict (<[k := v]> d)) k = ret v.
Proof. simpl. unfold getitem. rewrite lookup_insert_eq. reflexivity. Qed.

Lemma entry_getitem_insert (d : gmap string pyval) (k k' : string) (v : pyval) :
  entry_getitem (EDict (<[k := v]> d)) k' =
  if String.eqb k k' then ret v else entry_getitem (EDict d) k'.
Proof.
  destruct (String.eqb_spec k k') as [<- | Hne].
  - apply entry_getitem_insert_eq.
  - apply entry_getitem_insert_ne, Hne.
Qed.
