(* ===== verification/Tables.v ===== *)
(** * The lookup tables of [calculate_scores]

    The twelve dict literals of [Human20AssessmentBot.calculate_scores]
    (src/human_2_0_assessment_bot.py, lines 488-556) that map a
    categorical answer to a contribution in [0,100], with the facts about
    them that the scoring proofs share: every value is in [0,100], and a
    successful lookup returns an int in [0,100]. *)

From Stdlib Require Import ZArith QArith String.
From stdpp Require Import base gmap strings list.
From S2P Require Import Prelude PyValue.

Local Open Scope string_scope.
Local Open Scope Z_scope.

Definition quality_map : table :=
  dict_of [("Very Poor", 0); ("Poor", 25); ("Fair", 50); ("Good", 75); ("Excellent", 100)].

Definition crash_map : table :=
  dict_of [("Multiple times daily", 0); ("Daily", 25); ("Few times per week", 50);
           ("Rarely", 75); ("Never", 100)].

Definition recovery_map : table :=
  dict_of [("Very slowly", 0); ("Slowly", 25); ("Average", 50); ("Quickly", 75);
           ("Very quickly", 100)].

Definition hydration_map : table :=
  dict_of [("Less than 4 glasses", 0); ("4-6 glasses", 25); ("6-8 glasses", 75);
           ("8-10 glasses", 100); ("More than 10 glasses", 90)].

Definition exercise_map : table :=
  dict_of [("Never", 0); ("1-2 times", 25); ("3-4 times", 50); ("5-6 times", 75);
           ("Daily", 100)].

Definition focus_map : table :=
  dict_of [("Less than 15 minutes", 0); ("15-30 minutes", 25); ("30-60 minutes", 50);
           ("1-2 hours", 75); ("More than 2 hours", 100)].

Definition growth_map : table :=
  dict_of [("Very Little", 0); ("Somewhat", 25); ("Moderately", 50);
           ("Significantly", 75); ("Completely", 100)].

Definition income_map : table :=
  dict_of [("Under $25K", 10); ("$25K-$50K", 25); ("$50K-$75K", 40); ("$75K-$100K", 60);
           ("$100K-$150K", 75); ("$150K-$250K", 90); ("$250K+", 100)].

Definition savings_map : table :=
  dict_of [("0-5%", 10); ("5-10%", 30); ("10-15%", 50); ("15-20%", 75); ("20%+", 100)].

Definition debt_map : table :=
  dict_of [("Debt-free", 100); ("Minimal debt", 75); ("Moderate debt", 50);
           ("High debt", 25); ("Overwhelming debt", 0)].

Definition emergency_map : table :=
  dict_of [("No emergency fund", 0); ("Less than 1 month", 20); ("1-3 months", 40);
           ("3-6 months", 80); ("6+ months", 100)].

Definition exp_map : table :=
  dict_of [("Beginner", 20); ("Novice", 40); ("Intermediate", 60); ("Advanced", 80);
           ("Expert", 100)].

(** The tables [calculate_scores] consults. *)
Definition scoring_tables : list table :=
  [quality_map; crash_map; recovery_map; hydration_map; exercise_map; focus_map;
   growth_map; income_map; savings_map; debt_map; emergency_map; exp_map].

(** A table whose every value is a percentage. *)
Definition table_pct (t : table) : Prop := map_Forall (fun _ v => 0 <= v <= 100) t.

#[export] Instance table_pct_dec (t : table) : Decision (table_pct t).
Proof. unfold table_pct. apply _. Defined.

Lemma scoring_tables_pct : Forall table_pct scoring_tables.
Proof.
  repeat (constructor; [apply (bool_decide_unpack _); vm_compute; reflexivity |]).
  constructor.
Qed.

(** A successful lookup, with or without a default in [0,100], yields
    an int in [0,100]. *)
Lemma table_getitem_pct (t : table) (k v : pyval) :
  table_pct t -> table_getitem t k = inr v ->
  exists n, v = VInt n /\ 0 <= n <= 100.
Proof.
  intros Ht Hl. destruct k as [| |s|]; try discriminate.
  simpl in Hl. destruct (t !! s) as [n|] eqn:E; inversion Hl; subst.
  exists n. split; [reflexivity | exact (Ht s n E)].
Qed.

Lemma table_get_pct (t : table) (k v : pyval) (d : Z) :
  table_pct t -> 0 <= d <= 100 -> table_get t k d = inr v ->
  exists n, v = VInt n /\ 0 <= n <= 100.
Proof.
  intros Ht Hd Hl. destruct k as [| |s|]; simpl in Hl; try discriminate;
    [inversion Hl; eauto | inversion Hl; eauto | ].
  destruct (t !! s) as [n|] eqn:E; inversion Hl; subst; eauto.
Qed.

Lemma table_pct_of (t : table) : t ∈ scoring_tables -> table_pct t.
Proof. intros H. eapply Forall_forall; [exact scoring_tables_pct | exact H]. Qed.

#[export] Hint Resolve table_pct_of : h20.
