(* ===== verification/Forms.v ===== *)
(** * The four forms: widget domains and the answer dicts they build

    Each screen of [Human20AssessmentBot] is a Streamlit form whose
    widgets return a value in a fixed domain: a [st.slider(l, lo, hi, d)]
    returns an int in [lo, hi], a [st.selectbox]/[st.select_slider] one
    of its options, a [st.multiselect] a list of distinct options, and a
    [st.text_input] any string.  This file holds the option lists of the
    source verbatim, one record per form ([basic_form], [bio_form],
    [mental_form], [financial_form]) with what its widgets returned on
    submission, the validity of such a record (each widget value in its
    domain, as a boolean test), and the dict each submission handler
    stores in [st.session_state.assessment_data]
    ([basic_info_data], [biological_data], [mental_data],
    [financial_data]). *)

From Stdlib Require Import ZArith QArith String.
From stdpp Require Import base gmap strings list.
From S2P Require Import Prelude PyValue.

Local Open Scope string_scope.

(** ** Option lists (the widget domains) *)

Definition age_options : list string :=
  ["18-25"; "26-35"; "36-45"; "46-55"; "56-65"; "65+"].

Definition primary_goal_options : list string :=
  ["Increase energy and physical performance"; "Enhance mental clarity and focus";
   "Accelerate wealth building and financial success"; "Achieve balance across all areas";
   "Build a high-performance lifestyle"; "Other"].

Definition sleep_quality_options : list string :=
  ["Very Poor"; "Poor"; "Fair"; "Good"; "Excellent"].

Definition wake_refreshed_options : list string :=
  ["Never"; "Rarely"; "Sometimes"; "Often"; "Always"].

Definition energy_crashes_options : list string :=
  ["Multiple times daily"; "Daily"; "Few times per week"; "Rarely"; "Never"].

Definition stress_management_options : list string :=
  ["Very Poor"; "Poor"; "Fair"; "Good"; "Excellent"].

Definition recovery_time_options : list string :=
  ["Very slowly"; "Slowly"; "Average"; "Quickly"; "Very quickly"].

Definition nutrition_quality_options : list string :=
  ["Very Poor"; "Poor"; "Fair"; "Good"; "Excellent"].

Definition hydration_options : list string :=
  ["Less than 4 glasses"; "4-6 glasses"; "6-8 glasses"; "8-10 glasses";
   "More than 10 glasses"].

Definition exercise_frequency_options : list string :=
  ["Never"; "1-2 times"; "3-4 times"; "5-6 times"; "Daily"].

Definition focus_duration_options : list string :=
  ["Less than 15 minutes"; "15-30 minutes"; "30-60 minutes"; "1-2 hours";
   "More than 2 hours"].

Definition decision_making_options : list string :=
  ["Very Poor"; "Poor"; "Fair"; "Good"; "Excellent"].

Definition memory_performance_options : list string :=
  ["Very Poor"; "Poor"; "Fair"; "Good"; "Excellent"].

Definition emotional_regulation_options : list string :=
  ["Very Poor"; "Poor"; "Fair"; "Good"; "Excellent"].

Definition growth_mindset_options : list string :=
  ["Very Little"; "Somewhat"; "Moderately"; "Significantly"; "Completely"].

Definition resilience_options : list string :=
  ["Very Poor"; "Poor"; "Fair"; "Good"; "Excellent"].

Definition limiting_beliefs_options : list string :=
  ["I'm not smart enough"; "I don't deserve success"; "I'm too old/young to change";
   "I don't have enough time"; "I'm not good with technology"; "Success requires sacrifice";
   "I'm not a 'numbers person'"; "Other people are more talented";
   "None of these apply to me"].

Definition income_range_options : list string :=
  ["Under $25K"; "$25K-$50K"; "$50K-$75K"; "$75K-$100K"; "$100K-$150K"; "$150K-$250K";
   "$250K+"].

Definition savings_rate_options : list string :=
  ["0-5%"; "5-10%"; "10-15%"; "15-20%"; "20%+"].

Definition debt_situation_options : list string :=
  ["Debt-free"; "Minimal debt"; "Moderate debt"; "High debt"; "Overwhelming debt"].

Definition emergency_fund_options : list string :=
  ["No emergency fund"; "Less than 1 month"; "1-3 months"; "3-6 months"; "6+ months"].

Definition investment_experience_options : list string :=
  ["Beginner"; "Novice"; "Intermediate"; "Advanced"; "Expert"].

Definition investment_portfolio_options : list string :=
  ["Savings accounts"; "Stocks/ETFs"; "Bonds"; "Real estate"; "Cryptocurrency";
   "Business investments"; "Retirement accounts (401k, IRA)"; "None"].

Definition financial_goals_options : list string :=
  ["Build emergency fund"; "Pay off debt"; "Save for major purchase"; "Retirement planning";
   "Generate passive income"; "Start/grow a business"; "Achieve financial independence";
   "Build generational wealth"].

Definition wealth_beliefs_options : list string :=
  ["Money is the root of all evil"; "Rich people are greedy"; "I don't deserve to be wealthy";
   "Money doesn't buy happiness"; "There's not enough money to go around";
   "I'm not good with money"; "Money comes and goes"; "Wealth requires sacrifice";
   "None of these resonate with me"].

Definition business_status_options : list string :=
  ["Employee only"; "Side hustle"; "Part-time business"; "Full-time entrepreneur";
   "Multiple businesses"].

Definition business_revenue_options : list string :=
  ["Under $1K"; "$1K-$5K"; "$5K-$10K"; "$10K-$25K"; "$25K-$50K"; "$50K+"].

(** ** Widget domains, as boolean tests *)

(** [st.slider(label, lo, hi, default)]. *)
Definition slider_ok (lo hi z : Z) : bool := (lo <=? z)%Z && (z <=? hi)%Z.

(** [st.selectbox] / [st.select_slider]. *)
Definition select_ok (opts : list string) (s : string) : bool := bool_decide (s ∈ opts).

(** [st.multiselect]: distinct options, in the order they were picked. *)
Definition multiselect_ok (opts : list string) (l : list string) : bool :=
  bool_decide (NoDup l) && forallb (select_ok opts) l.

(** ** The basic-information form (lines 123-170) *)

Record basic_form : Type := {
  bf_first_name : string;
  bf_email : string;
  bf_age : string;
  bf_last_name : string;
  bf_phone : string;
  bf_occupation : string;
  bf_primary_goal : string;
  bf_custom_goal : string  (** rendered only when the goal is "Other" *)
}.

Definition basic_form_ok (f : basic_form) : bool :=
  select_ok age_options (bf_age f) && select_ok primary_goal_options (bf_primary_goal f).

(** Lines 156: the three starred fields must be non-empty strings. *)
Definition basic_required_ok (f : basic_form) : bool :=
  negb (String.eqb (bf_first_name f) "") && negb (String.eqb (bf_last_name f) "")
  && negb (String.eqb (bf_email f) "").

(** Lines 157-166: the keys added to [assessment_data]. *)
Definition basic_info_data (f : basic_form) : gmap string entry :=
  dict_of [("first_name", EVal (VStr (bf_first_name f)));
           ("last_name", EVal (VStr (bf_last_name f)));
           ("email", EVal (VStr (bf_email f)));
           ("phone", EVal (VStr (bf_phone f)));
           ("age", EVal (VStr (bf_age f)));
           ("occupation", EVal (VStr (bf_occupation f)));
           ("primary_goal", EVal (VStr (bf_primary_goal f)));
           ("custom_goal", EVal (VStr (if String.eqb (bf_primary_goal f) "Other"
                                       then bf_custom_goal f else "")))].

(** ** The biological form (lines 177-259) *)

Record bio_form : Type := {
  bio_sleep_hours : Z;
  bio_sleep_quality : string;
  bio_wake_refreshed : string;
  bio_energy_morning : Z;
  bio_energy_afternoon : Z;
  bio_energy_evening : Z;
  bio_energy_crashes : string;
  bio_stress_level : Z;
  bio_stress_management : string;
  bio_recovery_time : string;
  bio_nutrition_quality : string;
  bio_hydration : string;
  bio_exercise_frequency : string
}.

Definition bio_form_ok (f : bio_form) : bool :=
  slider_ok 4 12 (bio_sleep_hours f)
  && select_ok sleep_quality_options (bio_sleep_quality f)
  && select_ok wake_refreshed_options (bio_wake_refreshed f)
  && slider_ok 1 10 (bio_energy_morning f)
  && slider_ok 1 10 (bio_energy_afternoon f)
  && slider_ok 1 10 (bio_energy_evening f)
  && select_ok energy_crashes_options (bio_energy_crashes f)
  && slider_ok 1 10 (bio_stress_level f)
  && select_ok stress_management_options (bio_stress_management f)
  && select_ok recovery_time_options (bio_recovery_time f)
  && select_ok nutrition_quality_options (bio_nutrition_quality f)
  && select_ok hydration_options (bio_hydration f)
  && select_ok exercise_frequency_options (bio_exercise_frequency f).

(** Lines 242-256. *)
Definition biological_data (f : bio_form) : gmap string pyval :=
  dict_of [("sleep_hours", VInt (bio_sleep_hours f));
           ("sleep_quality", VStr (bio_sleep_quality f));
           ("wake_refreshed", VStr (bio_wake_refreshed f));
           ("energy_morning", VInt (bio_energy_morning f));
           ("energy_afternoon", VInt (bio_energy_afternoon f));
           ("energy_evening", VInt (bio_energy_evening f));
           ("energy_crashes", VStr (bio_energy_crashes f));
           ("stress_level", VInt (bio_stress_level f));
           ("stress_management", VStr (bio_stress_management f));
           ("recovery_time", VStr (bio_recovery_time f));
           ("nutrition_quality", VStr (bio_nutrition_quality f));
           ("hydration", VStr (bio_hydration f));
           ("exercise_frequency", VStr (bio_exercise_frequency f))].

(** ** The mental form (lines 266-350) *)

Record mental_form : Type := {
  men_focus_duration : string;
  men_mental_clarity : Z;
  men_decision_making : string;
  men_memory_performance : string;
  men_emotional_awareness : Z;
  men_emotional_regulation : string;
  men_social_skills : Z;
  men_empathy_level : Z;
  men_growth_mindset : string;
  men_self_confidence : Z;
  men_resilience : string;
  men_limiting_beliefs : list string
}.

Definition mental_form_ok (f : mental_form) : bool :=
  select_ok focus_duration_options (men_focus_duration f)
  && slider_ok 1 10 (men_mental_clarity f)
  && select_ok decision_making_options (men_decision_making f)
  && select_ok memory_performance_options (men_memory_performance f)
  && slider_ok 1 10 (men_emotional_awareness f)
  && select_ok emotional_regulation_options (men_emotional_regulation f)
  && slider_ok 1 10 (men_social_skills f)
  && slider_ok 1 10 (men_empathy_level f)
  && select_ok growth_mindset_options (men_growth_mindset f)
  && slider_ok 1 10 (men_self_confidence f)
  && select_ok resilience_options (men_resilience f)
  && multiselect_ok limiting_beliefs_options (men_limiting_beliefs f).

(** Lines 334-347. *)
Definition mental_data (f : mental_form) : gmap string pyval :=
  dict_of [("focus_duration", VStr (men_focus_duration f));
           ("mental_clarity", VInt (men_mental_clarity f));
           ("decision_making", VStr (men_decision_making f));
           ("memory_performance", VStr (men_memory_performance f));
           ("emotional_awareness", VInt (men_emotional_awareness f));
           ("emotional_regulation", VStr (men_emotional_regulation f));
           ("social_skills", VInt (men_social_skills f));
           ("empathy_level", VInt (men_empathy_level f));
           ("growth_mindset", VStr (men_growth_mindset f));
           ("self_confidence", VInt (men_self_confidence f));
           ("resilience", VStr (men_resilience f));
           ("limiting_beliefs", VList (men_limiting_beliefs f))].

(** ** The financial form (lines 357-476) *)

Record financial_form : Type := {
  fin_income_range : string;
  fin_savings_rate : string;
  fin_debt_situation : string;
  fin_emergency_fund : string;
  fin_investment_experience : string;
  fin_investment_portfolio : list string;
  fin_financial_goals : list string;
  fin_money_stress : Z;
  fin_money_confidence : Z;
  fin_wealth_beliefs : list string;
  fin_business_status : string;
  fin_business_revenue : string;  (** the select box, rendered unless "Employee only" *)
  fin_entrepreneurial_interest : Z
}.

(** Lines 445-452: the revenue is asked only of business owners. *)
Definition business_revenue_of (f : financial_form) : string :=
  if negb (String.eqb (fin_business_status f) "Employee only")
  then fin_business_revenue f else "N/A".

Definition financial_form_ok (f : financial_form) : bool :=
  select_ok income_range_options (fin_income_range f)
  && select_ok savings_rate_options (fin_savings_rate f)
  && select_ok debt_situation_options (fin_debt_situation f)
  && select_ok emergency_fund_options (fin_emergency_fund f)
  && select_ok investment_experience_options (fin_investment_experience f)
  && multiselect_ok investment_portfolio_options (fin_investment_portfolio f)
  && multiselect_ok financial_goals_options (fin_financial_goals f)
  && slider_ok 1 10 (fin_money_stress f)
  && slider_ok 1 10 (fin_money_confidence f)
  && multiselect_ok wealth_beliefs_options (fin_wealth_beliefs f)
  && select_ok business_status_options (fin_business_status f)
  && (String.eqb (fin_business_status f) "Employee only"
      || select_ok business_revenue_options (fin_business_revenue f))
  && slider_ok 1 10 (fin_entrepreneurial_interest f).

(** Lines 459-473. *)
Definition financial_data (f : financial_form) : gmap string pyval :=
  dict_of [("income_range", VStr (fin_income_range f));
           ("savings_rate", VStr (fin_savings_rate f));
           ("debt_situation", VStr (fin_debt_situation f));
           ("emergency_fund", VStr (fin_emergency_fund f));
           ("investment_experience", VStr (fin_investment_experience f));
           ("investment_portfolio", VList (fin_investment_portfolio f));
           ("financial_goals", VList (fin_financial_goals f));
           ("money_stress", VInt (fin_money_stress f));
           ("money_confidence", VInt (fin_money_confidence f));
           ("wealth_beliefs", VList (fin_wealth_beliefs f));
           ("business_status", VStr (fin_business_status f));
           ("business_revenue", VStr (business_revenue_of f));
           ("entrepreneurial_interest", VInt (fin_entrepreneurial_interest f))].

(** ** Domain facts *)

Lemma slider_ok_range (lo hi z : Z) : slider_ok lo hi z = true -> (lo <= z <= hi)%Z.
Proof. unfold slider_ok. rewrite andb_true_iff, !Z.leb_le. tauto. Qed.

Lemma select_ok_elem (opts : list string) (s : string) : select_ok opts s = true <-> s ∈ opts.
Proof. unfold select_ok. apply bool_decide_eq_true. Qed.

(** ** Key order

    The keys of the dict literals of lines 242-256, 334-347 and 459-473
    in the order they are written, which is the order a Python dict
    built by the literal iterates them in (its [repr] order). *)

Definition biological_keys : list string :=
  ["sleep_hours"; "sleep_quality"; "wake_refreshed"; "energy_morning"; "energy_afternoon";
   "energy_evening"; "energy_crashes"; "stress_level"; "stress_management"; "recovery_time";
   "nutrition_quality"; "hydration"; "exercise_frequency"].

Definition mental_keys : list string :=
  ["focus_duration"; "mental_clarity"; "decision_making"; "memory_performance";
   "emotional_awareness"; "emotional_regulation"; "social_skills"; "empathy_level";
   "growth_mindset"; "self_confidence"; "resilience"; "limiting_beliefs"].

Definition financial_keys : list string :=
  ["income_range"; "savings_rate"; "debt_situation"; "emergency_fund"; "investment_experience";
   "investment_portfolio"; "financial_goals"; "money_stress"; "money_confidence";
   "wealth_beliefs"; "business_status"; "business_revenue"; "entrepreneurial_interest"].

(** ** Example submissions

    One participant's answers, used to run the models on a concrete
    input: the scenario of the specification's section 8 (eight hours of
    good sleep, waking refreshed "Often", maximal energy, an income of
    $100K-$150K saving 20%+). *)

Definition example_basic_form : basic_form :=
  {| bf_first_name := "Ada"; bf_email := "ada@example.org"; bf_age := "36-45";
     bf_last_name := "Lovelace"; bf_phone := ""; bf_occupation := "Engineer";
     bf_primary_goal := "Achieve balance across all areas"; bf_custom_goal := "" |}.

Definition example_bio_form : bio_form :=
  {| bio_sleep_hours := 8; bio_sleep_quality := "Good"; bio_wake_refreshed := "Often";
     bio_energy_morning := 10; bio_energy_afternoon := 10; bio_energy_evening := 10;
     bio_energy_crashes := "Never"; bio_stress_level := 5; bio_stress_management := "Fair";
     bio_recovery_time := "Average"; bio_nutrition_quality := "Fair";
     bio_hydration := "6-8 glasses"; bio_exercise_frequency := "3-4 times" |}.

Definition example_mental_form : mental_form :=
  {| men_focus_duration := "1-2 hours"; men_mental_clarity := 7; men_decision_making := "Good";
     men_memory_performance := "Fair"; men_emotional_awareness := 6;
     men_emotional_regulation := "Good"; men_social_skills := 7; men_empathy_level := 8;
     men_growth_mindset := "Significantly"; men_self_confidence := 7; men_resilience := "Good";
     men_limiting_beliefs := ["I don't have enough time"] |}.

Definition example_financial_form : financial_form :=
  {| fin_income_range := "$100K-$150K"; fin_savings_rate := "20%+";
     fin_debt_situation := "Minimal debt"; fin_emergency_fund := "3-6 months";
     fin_investment_experience := "Intermediate"; fin_investment_portfolio := ["Stocks/ETFs"];
     fin_financial_goals := ["Retirement planning"]; fin_money_stress := 4;
     fin_money_confidence := 7; fin_wealth_beliefs := []; fin_business_status := "Side hustle";
     fin_business_revenue := "$1K-$5K"; fin_entrepreneurial_interest := 8 |}.

(** The [assessment_data] after the three assessment forms. *)
Definition example_data : gmap string entry :=
  <["financial" := EDict (financial_data example_financial_form)]>
  (<["mental" := EDict (mental_data example_mental_form)]>
   (<["biological" := EDict (biological_data example_bio_form)]> (basic_info_data example_basic_form))).
