(* ===== verification/Scoring.v ===== *)
(** * The scoring engine: [Human20AssessmentBot.calculate_scores]

    A line-by-line translation of [calculate_scores]
    (src/human_2_0_assessment_bot.py, lines 478-567) into the result
    monad of [PyValue]: every subscript, table lookup and operator is one
    [let*], in Python's evaluation order, so that the exception raised on
    a malformed answer set is the one Python raises.  The three category
    scores are computed by [biological_score], [mental_score] and
    [financial_score] from the three answer dicts, each clamped by
    [clamp100] ([min(100, max(0, x))]), and [calculate_scores] combines
    them into the [scores] record (the Python dict [scores]).

    The theorems of this file hold for every input: whatever
    [assessment_data] holds, a successful run returns four numbers in
    [0,100] with the overall score the 0.33/0.33/0.34 combination of the
    others. *)

From Stdlib Require Import ZArith QArith String.
From stdpp Require Import base gmap strings list.
From S2P Require Import Prelude PyValue Tables Forms.

Local Open Scope string_scope.

(** The dict [scores] returned by [calculate_scores]. *)
Record scores : Type := mkScores {
  biological : pyval;
  mental : pyval;
  financial : pyval;
  overall : pyval
}.

(** [min(100, max(0, x))], the clamp applied to each category score. *)
Definition clamp100 (x : pyval) : res pyval :=
  let* m := py_max (VInt 0) x in
  py_min (VInt 100) m.

(** ** Biological optimization (lines 482-512) *)

(** Lines 486-491, [# Sleep quality scoring]. *)
Definition sleep_score (bio_data : entry) : res pyval :=
  let* sh := entry_getitem bio_data "sleep_hours" in
  let* s0 := py_sub sh (VInt 4) in
  let* s1 := py_div s0 (VInt 8) in
  let* s2 := py_mul s1 (VInt 100) in
  let* sq := entry_getitem bio_data "sleep_quality" in
  let* q := table_getitem quality_map sq in
  let* s3 := py_add s2 q in
  let* wr := entry_getitem bio_data "wake_refreshed" in
  let* w := table_get quality_map wr 50 in
  let* s4 := py_add s3 w in
  py_div s4 (VInt 3).

(** Lines 493-496, [# Energy scoring]. *)
Definition energy_score (bio_data : entry) : res pyval :=
  let* em := entry_getitem bio_data "energy_morning" in
  let* ea := entry_getitem bio_data "energy_afternoon" in
  let* e0 := py_add em ea in
  let* ee := entry_getitem bio_data "energy_evening" in
  let* e1 := py_add e0 ee in
  let* e2 := py_div e1 (VInt 3) in
  let* e3 := py_mul e2 (VInt 10) in
  let* ec := entry_getitem bio_data "energy_crashes" in
  let* c := table_getitem crash_map ec in
  let* e4 := py_add e3 c in
  py_div e4 (VInt 2).

(** Lines 498-503, [# Stress and recovery scoring]. *)
Definition stress_score (bio_data : entry) : res pyval :=
  let* sl := entry_getitem bio_data "stress_level" in
  let* t0 := py_sub (VInt 10) sl in
  let* t1 := py_mul t0 (VInt 10) in
  let* sm := entry_getitem bio_data "stress_management" in
  let* m := table_getitem quality_map sm in
  let* t2 := py_add t1 m in
  let* rt := entry_getitem bio_data "recovery_time" in
  let* r := table_getitem recovery_map rt in
  let* t3 := py_add t2 r in
  py_div t3 (VInt 3).

(** Lines 505-509, [# Nutrition scoring]. *)
Definition nutrition_score (bio_data : entry) : res pyval :=
  let* nq := entry_getitem bio_data "nutrition_quality" in
  let* n0 := table_getitem quality_map nq in
  let* hy := entry_getitem bio_data "hydration" in
  let* h := table_getitem hydration_map hy in
  let* n1 := py_add n0 h in
  let* ef := entry_getitem bio_data "exercise_frequency" in
  let* x := table_getitem exercise_map ef in
  let* n2 := py_add n1 x in
  py_div n2 (VInt 3).

(** Lines 511-512: the weighted sum, clamped. *)
Definition biological_score (bio_data : entry) : res pyval :=
  let* sleep := sleep_score bio_data in
  let* energy := energy_score bio_data in
  let* stress := stress_score bio_data in
  let* nutrition := nutrition_score bio_data in
  let* b0 := py_mul sleep (VFloat 0.25) in
  let* b1 := py_mul energy (VFloat 0.25) in
  let* b2 := py_add b0 b1 in
  let* b3 := py_mul stress (VFloat 0.20) in
  let* b4 := py_add b2 b3 in
  let* b5 := py_mul nutrition (VFloat 0.30) in
  let* bio_score := py_add b4 b5 in
  clamp100 bio_score.

(** ** Mental architecture (lines 514-539) *)

(** Lines 518-524, [# Cognitive performance]. *)
Definition cognitive_score (mental_data : entry) : res pyval :=
  let* fd := entry_getitem mental_data "focus_duration" in
  let* c0 := table_getitem focus_map fd in
  let* mc := entry_getitem mental_data "mental_clarity" in
  let* mc10 := py_mul mc (VInt 10) in
  let* c1 := py_add c0 mc10 in
  let* dm := entry_getitem mental_data "decision_making" in
  let* d := table_getitem quality_map dm in
  let* c2 := py_add c1 d in
  let* mp := entry_getitem mental_data "memory_performance" in
  let* p := table_getitem quality_map mp in
  let* c3 := py_add c2 p in
  py_div c3 (VInt 4).

(** Lines 526-529, [# Emotional intelligence]. *)
Definition emotional_score (mental_data : entry) : res pyval :=
  let* ea := entry_getitem mental_data "emotional_awareness" in
  let* ss := entry_getitem mental_data "social_skills" in
  let* o0 := py_add ea ss in
  let* el := entry_getitem mental_data "empathy_level" in
  let* o1 := py_add o0 el in
  let* o2 := py_div o1 (VInt 3) in
  let* o3 := py_mul o2 (VInt 10) in
  let* er := entry_getitem mental_data "emotional_regulation" in
  let* r := table_getitem quality_map er in
  let* o4 := py_add o3 r in
  py_div o4 (VInt 2).

(** Lines 531-536, [# Mindset and resilience]. *)
Definition mindset_score (mental_data : entry) : res pyval :=
  let* gm := entry_getitem mental_data "growth_mindset" in
  let* g0 := table_getitem growth_map gm in
  let* sc := entry_getitem mental_data "self_confidence" in
  let* sc10 := py_mul sc (VInt 10) in
  let* g1 := py_add g0 sc10 in
  let* rs := entry_getitem mental_data "resilience" in
  let* rq := table_getitem quality_map rs in
  let* g2 := py_add g1 rq in
  py_div g2 (VInt 3).

(** Lines 538-539. *)
Definition mental_score (mental_data : entry) : res pyval :=
  let* cognitive := cognitive_score mental_data in
  let* emotional := emotional_score mental_data in
  let* mindset := mindset_score mental_data in
  let* m0 := py_mul cognitive (VFloat 0.30) in
  let* m1 := py_mul emotional (VFloat 0.35) in
  let* m2 := py_add m0 m1 in
  let* m3 := py_mul mindset (VFloat 0.35) in
  let* mental := py_add m2 m3 in
  clamp100 mental.

(** ** Financial intelligence (lines 541-562) *)

(** Lines 545-548, [# Income and savings]. *)
Definition wealth_score (financial_data : entry) : res pyval :=
  let* ir := entry_getitem financial_data "income_range" in
  let* i := table_getitem income_map ir in
  let* sr := entry_getitem financial_data "savings_rate" in
  let* s := table_getitem savings_map sr in
  let* w0 := py_add i s in
  py_div w0 (VInt 2).

(** Lines 550-553, [# Debt and emergency fund]. *)
Definition stability_score (financial_data : entry) : res pyval :=
  let* ds := entry_getitem financial_data "debt_situation" in
  let* d := table_getitem debt_map ds in
  let* ef := entry_getitem financial_data "emergency_fund" in
  let* e := table_getitem emergency_map ef in
  let* t0 := py_add d e in
  py_div t0 (VInt 2).

(** Lines 556-557, [# Investment and mindset], first half. *)
Definition investment_score (financial_data : entry) : res pyval :=
  let* ie := entry_getitem financial_data "investment_experience" in
  table_getitem exp_map ie.

(** Lines 558-559: the money mindset (a second local [mindset_score]). *)
Definition money_mindset_score (financial_data : entry) : res pyval :=
  let* ms := entry_getitem financial_data "money_stress" in
  let* k0 := py_sub (VInt 10) ms in
  let* k1 := py_mul k0 (VInt 10) in
  let* mc := entry_getitem financial_data "money_confidence" in
  let* k2 := py_mul mc (VInt 10) in
  let* k3 := py_add k1 k2 in
  py_div k3 (VInt 2).

(** Lines 561-562. *)
Definition financial_score (financial_data : entry) : res pyval :=
  let* wealth := wealth_score financial_data in
  let* stability := stability_score financial_data in
  let* investment := investment_score financial_data in
  let* mindset := money_mindset_score financial_data in
  let* f0 := py_mul wealth (VFloat 0.30) in
  let* f1 := py_mul stability (VFloat 0.25) in
  let* f2 := py_add f0 f1 in
  let* f3 := py_mul investment (VFloat 0.20) in
  let* f4 := py_add f2 f3 in
  let* f5 := py_mul mindset (VFloat 0.25) in
  let* financial := py_add f4 f5 in
  clamp100 financial.

(** Line 565: the overall score. *)
Definition overall_score (b m f : pyval) : res pyval :=
  let* o0 := py_mul b (VFloat 0.33) in
  let* o1 := py_mul m (VFloat 0.33) in
  let* o2 := py_add o0 o1 in
  let* o3 := py_mul f (VFloat 0.34) in
  py_add o2 o3.

(** Lines 478-567. *)
Definition calculate_scores (assessment_data : gmap string entry) : res scores :=
  let* bio_data := data_getitem assessment_data "biological" in
  let* b := biological_score bio_data in
  let* mental_data := data_getitem assessment_data "mental" in
  let* m := mental_score mental_data in
  let* financial_data := data_getitem assessment_data "financial" in
  let* f := financial_score financial_data in
  let* o := overall_score b m f in
  ret (mkScores b m f o).

(** ** Shared lemmas *)

(** Whatever it is applied to, a successful clamp gives a number in
    [0,100]. *)
Lemma clamp100_pct (x v : pyval) :
  clamp100 x = inr v -> exists q, num v = Some q /\ pct q.
Proof.
  unfold clamp100, py_max, py_min, py_lt. simpl num.
  destruct (num x) as [q|] eqn:Ex; [| discriminate]. simpl.
  case_Qle_bool q (inject_Z 0); simpl.
  - intros H. inversion H; subst. eexists; split; [reflexivity | qlra].
  - rewrite Ex; simpl.
    case_Qle_bool (inject_Z 100) q; simpl; intros H; inversion H; subst.
    + eexists; split; [reflexivity | qlra].
    + eexists; split; [exact Ex | qlra].
Qed.

(** On a number, the clamp returns a number whose value is
    [Qclamp] of it (the int [0] or [100] when it clamps). *)
Lemma clamp100_num (x : pyval) (q : Q) :
  num x = Some q -> exists v, clamp100 x = ret v /\ is_num v (Qclamp q).
Proof.
  intros Ex. unfold clamp100, py_max, py_min, py_lt. simpl num. rewrite Ex. simpl.
  case_Qle_bool q (inject_Z 0); simpl.
  - eexists; split; [reflexivity | exists (inject_Z 0); split; [reflexivity |]].
    rewrite Qclamp_le0 by qlra. reflexivity.
  - rewrite Ex; simpl.
    case_Qle_bool (inject_Z 100) q; simpl.
    + eexists; split; [reflexivity | exists (inject_Z 100); split; [reflexivity |]].
      rewrite Qclamp_ge100 by qlra. reflexivity.
    + eexists; split; [reflexivity | exists q; split; [exact Ex |]].
      rewrite Qclamp_id by qlra. reflexivity.
Qed.

(** The form used at the end of each category: the clamp of a number
    [q] meets any [r] equal to [Qclamp q]. *)
Lemma clamp100_refines (x : pyval) (q r : Q) :
  num x = Some q -> (Qclamp q == r)%Q -> exists v, clamp100 x = inr v /\ is_num v r.
Proof.
  intros Ex Hr. destruct (clamp100_num x q Ex) as (v & Hv & Hn).
  exists v. split; [exact Hv | rewrite <- Hr; exact Hn].
Qed.

Lemma overall_score_num (b m f : pyval) (x y z : Q) :
  num b = Some x -> num m = Some y -> num f = Some z ->
  exists o, overall_score b m f = ret o /\
            num o = Some (x * 0.33 + y * 0.33 + z * 0.34)%Q.
Proof.
  intros Hb Hm Hf. unfold overall_score.
  destruct (num_mul b (VFloat 0.33) x 0.33) as (o0 & E0 & H0); auto.
  destruct (num_mul m (VFloat 0.33) y 0.33) as (o1 & E1 & H1); auto.
  destruct (num_add o0 o1 _ _ H0 H1) as (o2 & E2 & H2).
  destruct (num_mul f (VFloat 0.34) z 0.34) as (o3 & E3 & H3); auto.
  rewrite E0; cbn [bind ret]; rewrite E1; cbn [bind ret];
    rewrite E2; cbn [bind ret]; rewrite E3; cbn [bind ret].
  exact (num_add o2 o3 _ _ H2 H3).
Qed.

Lemma biological_score_pct (e : entry) (v : pyval) :
  biological_score e = inr v -> exists q, num v = Some q /\ pct q.
Proof. unfold biological_score. intros H. inv_bind. eapply clamp100_pct; eauto. Qed.

Lemma mental_score_pct (e : entry) (v : pyval) :
  mental_score e = inr v -> exists q, num v = Some q /\ pct q.
Proof. unfold mental_score. intros H. inv_bind. eapply clamp100_pct; eauto. Qed.

Lemma financial_score_pct (e : entry) (v : pyval) :
  financial_score e = inr v -> exists q, num v = Some q /\ pct q.
Proof. unfold financial_score. intros H. inv_bind. eapply clamp100_pct; eauto. Qed.

(** ** Properties of [calculate_scores] on every input *)

Lemma calculate_scores_bounds (data : gmap string entry) (s : scores) :
  calculate_scores data = inr s ->
  exists b m f,
    num (biological s) = Some b /\ num (mental s) = Some m /\
    num (financial s) = Some f /\ pct b /\ pct m /\ pct f /\
    num (overall s) = Some (b * 0.33 + m * 0.33 + f * 0.34)%Q /\
    pct (b * 0.33 + m * 0.33 + f * 0.34)%Q.
Proof.
  unfold calculate_scores. intros H. inv_bind. inversion H; subst; simpl.
  destruct (biological_score_pct _ _ Ha0) as (b & Hb & Pb).
  destruct (mental_score_pct _ _ Ha2) as (m & Hm & Pm).
  destruct (financial_score_pct _ _ Ha4) as (f & Hf & Pf).
  destruct (overall_score_num _ _ _ _ _ _ Hb Hm Hf) as (o & Ho & Hon).
  rewrite Ho in Ha5. inversion Ha5; subst.
  exists b, m, f. repeat split; auto; qlra.
Qed.

(** C1. Whatever [assessment_data] holds, when [calculate_scores] returns,
    the biological, mental and financial scores are numbers in [0,100]
    and the overall score is the number 0.33*b + 0.33*m + 0.34*f, which
    is in [0,100] too. *)
Theorem calculate_scores_pct (data : gmap string entry) (s : scores) :
  calculate_scores data = inr s ->
  exists b m f,
    num (biological s) = Some b /\ num (mental s) = Some m /\
    num (financial s) = Some f /\ pct b /\ pct m /\ pct f /\
    num (overall s) = Some (b * 0.33 + m * 0.33 + f * 0.34)%Q /\
    pct (b * 0.33 + m * 0.33 + f * 0.34)%Q.
Proof. exact (calculate_scores_bounds data s). Qed.

(** ** The wake-refreshed answer *)

Lemma wake_option_default (w : string) :
  w ∈ wake_refreshed_options -> table_get quality_map (VStr w) 50 = ret (VInt 50).
Proof.
  unfold wake_refreshed_options. intros Hw.
  repeat (apply elem_of_cons in Hw as [-> | Hw]; [reflexivity |]).
  apply not_elem_of_nil in Hw. contradiction.
Qed.

(** C10. The answer to "How often do you wake up feeling refreshed?" has
    no effect: [quality_map.get(bio_data['wake_refreshed'], 50)] looks the
    answer up in the sleep-quality table, whose keys are none of the five
    options of that slider, so every option counts 50 and any two of them
    give the same biological score on every answer dict. *)
Theorem wake_refreshed_ignored (d : gmap string pyval) (w w' : string) :
  w ∈ wake_refreshed_options -> w' ∈ wake_refreshed_options ->
  biological_score (EDict (<["wake_refreshed" := VStr w]> d)) =
  biological_score (EDict (<["wake_refreshed" := VStr w']> d)).
Proof.
  intros Hw Hw'.
  unfold biological_score, sleep_score, energy_score, stress_score, nutrition_score.
  rewrite !entry_getitem_insert. cbv [String.eqb Ascii.eqb Bool.eqb]. cbn [bind ret].
  rewrite (wake_option_default w Hw), (wake_option_default w' Hw'). reflexivity.
Qed.

Lemma wake_refreshed_ignored_witness :
  "Always" ∈ wake_refreshed_options /\ "Never" ∈ wake_refreshed_options /\
  biological_score (EDict (<["wake_refreshed" := VStr "Always"]> (biological_data example_bio_form))) =
  biological_score (EDict (<["wake_refreshed" := VStr "Never"]> (biological_data example_bio_form))).
Proof.
  assert (H1 : "Always" ∈ wake_refreshed_options) by (apply select_ok_elem; reflexivity).
  assert (H2 : "Never" ∈ wake_refreshed_options) by (apply select_ok_elem; reflexivity).
  split; [exact H1 | split; [exact H2 |]].
  apply wake_refreshed_ignored; assumption.
Defined.

(** ** Witnesses *)

Lemma calculate_scores_pct_witness :
  exists s, calculate_scores example_data = inr s /\
  exists b m f,
    num (biological s) = Some b /\ num (mental s) = Some m /\
    num (financial s) = Some f /\ pct b /\ pct m /\ pct f /\
    num (overall s) = Some (b * 0.33 + m * 0.33 + f * 0.34)%Q /\
    pct (b * 0.33 + m * 0.33 + f * 0.34)%Q.
Proof.
  eexists; split.
  - vm_compute. reflexivity.
  - apply (calculate_scores_pct example_data). vm_compute. reflexivity.
Defined.

