(* ===== verification/Spec.v ===== *)
(** * The abstract specification of the scoring engine

    What the scoring engine promises, written from the answer model of
    the specification (an [AnswerSet] of three typed sub-records with
    enumerated categorical answers) and independent of the code: each
    categorical scale is an inductive type with its label (the text the
    form shows) and its contribution, the sliders are integers with
    their ranges ([bio_ranges], [mental_ranges], [financial_ranges]),
    and the category scores are the averages and weighted sums of the
    specification's section 4.1 on exact rationals, clamped by
    [Qclamp].  The wake-refreshed scale is scored like the other
    five-point scales (Never 0 ... Often 75, Always 100), as the
    specification's worked example ("Often"(75)) reads it.

    Theorems: on answers in range every sub-score and every raw weighted
    sum already lies in [0,100], so the clamps never act. *)

From Stdlib Require Import ZArith QArith String.
From stdpp Require Import base finite list sets.
From S2P Require Import Prelude.

Local Open Scope string_scope.

(** Finite enumerations: the [NoDup] and completeness obligations. *)
Ltac finite_obligations :=
  first [ apply (bool_decide_unpack _); vm_compute; reflexivity
        | intros []; apply (bool_decide_unpack _); vm_compute; reflexivity ].

#[local] Obligation Tactic := idtac.

Module Spec.

(** ** Categorical scales *)

(** The five-point quality scale (sleep quality, stress management,
    nutrition, decision making, memory, emotional regulation, resilience). *)
Inductive rating := VeryPoor | Poor | Fair | Good | Excellent.
(** How often one wakes refreshed. *)
Inductive refresh := RNever | RRarely | RSometimes | ROften | RAlways.
Inductive crashes := MultipleDaily | CDaily | FewPerWeek | CRarely | CNever.
Inductive recovery := VerySlowly | Slowly | Average | Quickly | VeryQuickly.
Inductive hydration_level := LessThan4 | Glasses4to6 | Glasses6to8 | Glasses8to10 | MoreThan10.
Inductive exercise := ENever | Times1to2 | Times3to4 | Times5to6 | EDaily.
Inductive focus := LessThan15 | Min15to30 | Min30to60 | Hours1to2 | MoreThan2h.
Inductive growth := VeryLittle | Somewhat | Moderately | Significantly | Completely.
Inductive income := Under25K | K25to50 | K50to75 | K75to100 | K100to150 | K150to250 | K250plus.
Inductive savings := S0to5 | S5to10 | S10to15 | S15to20 | S20plus.
Inductive debt := DebtFree | MinimalDebt | ModerateDebt | HighDebt | OverwhelmingDebt.
Inductive emergency := NoFund | UnderOneMonth | Months1to3 | Months3to6 | Months6plus.
Inductive experience := Beginner | Novice | Intermediate | Advanced | Expert.

#[export] Instance rating_eq : EqDecision rating := ltac:(solve_decision).
#[export] Instance refresh_eq : EqDecision refresh := ltac:(solve_decision).
#[export] Instance crashes_eq : EqDecision crashes := ltac:(solve_decision).
#[export] Instance recovery_eq : EqDecision recovery := ltac:(solve_decision).
#[export] Instance hydration_eq : EqDecision hydration_level := ltac:(solve_decision).
#[export] Instance exercise_eq : EqDecision exercise := ltac:(solve_decision).
#[export] Instance focus_eq : EqDecision focus := ltac:(solve_decision).
#[export] Instance growth_eq : EqDecision growth := ltac:(solve_decision).
#[export] Instance income_eq : EqDecision income := ltac:(solve_decision).
#[export] Instance savings_eq : EqDecision savings := ltac:(solve_decision).
#[export] Instance debt_eq : EqDecision debt := ltac:(solve_decision).
#[export] Instance emergency_eq : EqDecision emergency := ltac:(solve_decision).
#[export] Instance experience_eq : EqDecision experience := ltac:(solve_decision).

#[export] Program Instance rating_finite : Finite rating :=
  {| enum := [VeryPoor; Poor; Fair; Good; Excellent] |}.
Next Obligation. finite_obligations. Qed.
Next Obligation. finite_obligations. Qed.
#[export] Program Instance refresh_finite : Finite refresh :=
  {| enum := [RNever; RRarely; RSometimes; ROften; RAlways] |}.
Next Obligation. finite_obligations. Qed.
Next Obligation. finite_obligations. Qed.
#[export] Program Instance crashes_finite : Finite crashes :=
  {| enum := [MultipleDaily; CDaily; FewPerWeek; CRarely; CNever] |}.
Next Obligation. finite_obligations. Qed.
Next Obligation. finite_obligations. Qed.
#[export] Program Instance recovery_finite : Finite recovery :=
  {| enum := [VerySlowly; Slowly; Average; Quickly; VeryQuickly] |}.
Next Obligation. finite_obligations. Qed.
Next Obligation. finite_obligations. Qed.
#[export] Program Instance hydration_finite : Finite hydration_level :=
  {| enum := [LessThan4; Glasses4to6; Glasses6to8; Glasses8to10; MoreThan10] |}.
Next Obligation. finite_obligations. Qed.
Next Obligation. finite_obligations. Qed.
#[export] Program Instance exercise_finite : Finite exercise :=
  {| enum := [ENever; Times1to2; Times3to4; Times5to6; EDaily] |}.
Next Obligation. finite_obligations. Qed.
Next Obligation. finite_obligations. Qed.
#[export] Program Instance focus_finite : Finite focus :=
  {| enum := [LessThan15; Min15to30; Min30to60; Hours1to2; MoreThan2h] |}.
Next Obligation. finite_obligations. Qed.
Next Obligation. finite_obligations. Qed.
#[export] Program Instance growth_finite : Finite growth :=
  {| enum := [VeryLittle; Somewhat; Moderately; Significantly; Completely] |}.
Next Obligation. finite_obligations. Qed.
Next Obligation. finite_obligations. Qed.
#[export] Program Instance income_finite : Finite income :=
  {| enum := [Under25K; K25to50; K50to75; K75to100; K100to150; K150to250; K250plus] |}.
Next Obligation. finite_obligations. Qed.
Next Obligation. finite_obligations. Qed.
#[export] Program Instance savings_finite : Finite savings :=
  {| enum := [S0to5; S5to10; S10to15; S15to20; S20plus] |}.
Next Obligation. finite_obligations. Qed.
Next Obligation. finite_obligations. Qed.
#[export] Program Instance debt_finite : Finite debt :=
  {| enum := [DebtFree; MinimalDebt; ModerateDebt; HighDebt; OverwhelmingDebt] |}.
Next Obligation. finite_obligations. Qed.
Next Obligation. finite_obligations. Qed.
#[export] Program Instance emergency_finite : Finite emergency :=
  {| enum := [NoFund; UnderOneMonth; Months1to3; Months3to6; Months6plus] |}.
Next Obligation. finite_obligations. Qed.
Next Obligation. finite_obligations. Qed.
#[export] Program Instance experience_finite : Finite experience :=
  {| enum := [Beginner; Novice; Intermediate; Advanced; Expert] |}.
Next Obligation. finite_obligations. Qed.
Next Obligation. finite_obligations. Qed.

(** ** Labels (the text of each option) and contributions *)

Definition rating_label (r : rating) : string :=
  match r with
  | VeryPoor => "Very Poor" | Poor => "Poor" | Fair => "Fair" | Good => "Good"
  | Excellent => "Excellent"
  end.
Definition rating_score (r : rating) : Z :=
  match r with VeryPoor => 0 | Poor => 25 | Fair => 50 | Good => 75 | Excellent => 100 end.

Definition refresh_label (r : refresh) : string :=
  match r with
  | RNever => "Never" | RRarely => "Rarely" | RSometimes => "Sometimes" | ROften => "Often"
  | RAlways => "Always"
  end.
Definition refresh_score (r : refresh) : Z :=
  match r with RNever => 0 | RRarely => 25 | RSometimes => 50 | ROften => 75 | RAlways => 100 end.

Definition crashes_label (c : crashes) : string :=
  match c with
  | MultipleDaily => "Multiple times daily" | CDaily => "Daily"
  | FewPerWeek => "Few times per week" | CRarely => "Rarely" | CNever => "Never"
  end.
Definition crashes_score (c : crashes) : Z :=
  match c with
  | MultipleDaily => 0 | CDaily => 25 | FewPerWeek => 50 | CRarely => 75 | CNever => 100
  end.

Definition recovery_label (r : recovery) : string :=
  match r with
  | VerySlowly => "Very slowly" | Slowly => "Slowly" | Average => "Average"
  | Quickly => "Quickly" | VeryQuickly => "Very quickly"
  end.
Definition recovery_score (r : recovery) : Z :=
  match r with
  | VerySlowly => 0 | Slowly => 25 | Average => 50 | Quickly => 75 | VeryQuickly => 100
  end.

Definition hydration_label (h : hydration_level) : string :=
  match h with
  | LessThan4 => "Less than 4 glasses" | Glasses4to6 => "4-6 glasses"
  | Glasses6to8 => "6-8 glasses" | Glasses8to10 => "8-10 glasses"
  | MoreThan10 => "More than 10 glasses"
  end.
Definition hydration_score (h : hydration_level) : Z :=
  match h with
  | LessThan4 => 0 | Glasses4to6 => 25 | Glasses6to8 => 75 | Glasses8to10 => 100
  | MoreThan10 => 90
  end.

Definition exercise_label (e : exercise) : string :=
  match e with
  | ENever => "Never" | Times1to2 => "1-2 times" | Times3to4 => "3-4 times"
  | Times5to6 => "5-6 times" | EDaily => "Daily"
  end.
Definition exercise_score (e : exercise) : Z :=
  match e with
  | ENever => 0 | Times1to2 => 25 | Times3to4 => 50 | Times5to6 => 75 | EDaily => 100
  end.

Definition focus_label (f : focus) : string :=
  match f with
  | LessThan15 => "Less than 15 minutes" | Min15to30 => "15-30 minutes"
  | Min30to60 => "30-60 minutes" | Hours1to2 => "1-2 hours"
  | MoreThan2h => "More than 2 hours"
  end.
Definition focus_score (f : focus) : Z :=
  match f with
  | LessThan15 => 0 | Min15to30 => 25 | Min30to60 => 50 | Hours1to2 => 75 | MoreThan2h => 100
  end.

Definition growth_label (g : growth) : string :=
  match g with
  | VeryLittle => "Very Little" | Somewhat => "Somewhat" | Moderately => "Moderately"
  | Significantly => "Significantly" | Completely => "Completely"
  end.
Definition growth_score (g : growth) : Z :=
  match g with
  | VeryLittle => 0 | Somewhat => 25 | Moderately => 50 | Significantly => 75
  | Completely => 100
  end.

Definition income_label (i : income) : string :=
  match i with
  | Under25K => "Under $25K" | K25to50 => "$25K-$50K" | K50to75 => "$50K-$75K"
  | K75to100 => "$75K-$100K" | K100to150 => "$100K-$150K" | K150to250 => "$150K-$250K"
  | K250plus => "$250K+"
  end.
Definition income_score (i : income) : Z :=
  match i with
  | Under25K => 10 | K25to50 => 25 | K50to75 => 40 | K75to100 => 60 | K100to150 => 75
  | K150to250 => 90 | K250plus => 100
  end.

Definition savings_label (s : savings) : string :=
  match s with
  | S0to5 => "0-5%" | S5to10 => "5-10%" | S10to15 => "10-15%" | S15to20 => "15-20%"
  | S20plus => "20%+"
  end.
Definition savings_score (s : savings) : Z :=
  match s with S0to5 => 10 | S5to10 => 30 | S10to15 => 50 | S15to20 => 75 | S20plus => 100 end.

Definition debt_label (d : debt) : string :=
  match d with
  | DebtFree => "Debt-free" | MinimalDebt => "Minimal debt" | ModerateDebt => "Moderate debt"
  | HighDebt => "High debt" | OverwhelmingDebt => "Overwhelming debt"
  end.
Definition debt_score (d : debt) : Z :=
  match d with
  | DebtFree => 100 | MinimalDebt => 75 | ModerateDebt => 50 | HighDebt => 25
  | OverwhelmingDebt => 0
  end.

Definition emergency_label (e : emergency) : string :=
  match e with
  | NoFund => "No emergency fund" | UnderOneMonth => "Less than 1 month"
  | Months1to3 => "1-3 months" | Months3to6 => "3-6 months" | Months6plus => "6+ months"
  end.
Definition emergency_score (e : emergency) : Z :=
  match e with
  | NoFund => 0 | UnderOneMonth => 20 | Months1to3 => 40 | Months3to6 => 80
  | Months6plus => 100
  end.

Definition experience_label (e : experience) : string :=
  match e with
  | Beginner => "Beginner" | Novice => "Novice" | Intermediate => "Intermediate"
  | Advanced => "Advanced" | Expert => "Expert"
  end.
Definition experience_score (e : experience) : Z :=
  match e with
  | Beginner => 20 | Novice => 40 | Intermediate => 60 | Advanced => 80 | Expert => 100
  end.

(** Every contribution is a percentage. *)
Class ScoreRange {A} (f : A -> Z) := score_range : forall x, (0 <= f x <= 100)%Z.

#[export] Instance rating_score_range : ScoreRange rating_score. Proof. intros []; simpl; lia. Qed.
#[export] Instance refresh_score_range : ScoreRange refresh_score. Proof. intros []; simpl; lia. Qed.
#[export] Instance crashes_score_range : ScoreRange crashes_score. Proof. intros []; simpl; lia. Qed.
#[export] Instance recovery_score_range : ScoreRange recovery_score. Proof. intros []; simpl; lia. Qed.
#[export] Instance hydration_score_range : ScoreRange hydration_score. Proof. intros []; simpl; lia. Qed.
#[export] Instance exercise_score_range : ScoreRange exercise_score. Proof. intros []; simpl; lia. Qed.
#[export] Instance focus_score_range : ScoreRange focus_score. Proof. intros []; simpl; lia. Qed.
#[export] Instance growth_score_range : ScoreRange growth_score. Proof. intros []; simpl; lia. Qed.
#[export] Instance income_score_range : ScoreRange income_score. Proof. intros []; simpl; lia. Qed.
#[export] Instance savings_score_range : ScoreRange savings_score. Proof. intros []; simpl; lia. Qed.
#[export] Instance debt_score_range : ScoreRange debt_score. Proof. intros []; simpl; lia. Qed.
#[export] Instance emergency_score_range : ScoreRange emergency_score. Proof. intros []; simpl; lia. Qed.
#[export] Instance experience_score_range : ScoreRange experience_score. Proof. intros []; simpl; lia. Qed.

(** ** The answer set *)

Record bio_answers : Type := {
  sleep_hours : Z;
  sleep_quality : rating;
  wake_refreshed : refresh;
  energy_morning : Z;
  energy_afternoon : Z;
  energy_evening : Z;
  energy_crashes : crashes;
  stress_level : Z;
  stress_management : rating;
  recovery_time : recovery;
  nutrition_quality : rating;
  hydration : hydration_level;
  exercise_frequency : exercise
}.

Record mental_answers : Type := {
  focus_duration : focus;
  mental_clarity : Z;
  decision_making : rating;
  memory_performance : rating;
  emotional_awareness : Z;
  emotional_regulation : rating;
  social_skills : Z;
  empathy_level : Z;
  growth_mindset : growth;
  self_confidence : Z;
  resilience : rating
}.

Record financial_answers : Type := {
  income_range : income;
  savings_rate : savings;
  debt_situation : debt;
  emergency_fund : emergency;
  investment_experience : experience;
  money_stress : Z;
  money_confidence : Z
}.

Record answer_set : Type := {
  biological_answers : bio_answers;
  mental_answers_of : mental_answers;
  financial_answers_of : financial_answers
}.

(** The slider ranges. *)
Definition bio_ranges (a : bio_answers) : Prop :=
  (4 <= sleep_hours a <= 12)%Z /\ (1 <= energy_morning a <= 10)%Z /\
  (1 <= energy_afternoon a <= 10)%Z /\ (1 <= energy_evening a <= 10)%Z /\
  (1 <= stress_level a <= 10)%Z.

Definition mental_ranges (a : mental_answers) : Prop :=
  (1 <= mental_clarity a <= 10)%Z /\ (1 <= emotional_awareness a <= 10)%Z /\
  (1 <= social_skills a <= 10)%Z /\ (1 <= empathy_level a <= 10)%Z /\
  (1 <= self_confidence a <= 10)%Z.

Definition financial_ranges (a : financial_answers) : Prop :=
  (1 <= money_stress a <= 10)%Z /\ (1 <= money_confidence a <= 10)%Z.

Definition answers_ranges (a : answer_set) : Prop :=
  bio_ranges (biological_answers a) /\ mental_ranges (mental_answers_of a) /\
  financial_ranges (financial_answers_of a).

(** ** The scores of section 4.1 *)

Local Open Scope Q_scope.
Local Notation "'#' z" := (inject_Z z) (at level 1, format "'#' z").

Definition sleep (a : bio_answers) : Q :=
  ((#(sleep_hours a) - 4) / 8 * 100 + #(rating_score (sleep_quality a))
   + #(refresh_score (wake_refreshed a))) / 3.
Definition energy (a : bio_answers) : Q :=
  ((#(energy_morning a) + #(energy_afternoon a) + #(energy_evening a)) / 3 * 10
   + #(crashes_score (energy_crashes a))) / 2.
Definition stress (a : bio_answers) : Q :=
  ((10 - #(stress_level a)) * 10 + #(rating_score (stress_management a))
   + #(recovery_score (recovery_time a))) / 3.
Definition nutrition (a : bio_answers) : Q :=
  (#(rating_score (nutrition_quality a)) + #(hydration_score (hydration a))
   + #(exercise_score (exercise_frequency a))) / 3.
Definition biological_raw (a : bio_answers) : Q :=
  0.25 * sleep a + 0.25 * energy a + 0.20 * stress a + 0.30 * nutrition a.
Definition biological (a : bio_answers) : Q := Qclamp (biological_raw a).

Definition cognitive (a : mental_answers) : Q :=
  (#(focus_score (focus_duration a)) + #(mental_clarity a) * 10
   + #(rating_score (decision_making a)) + #(rating_score (memory_performance a))) / 4.
Definition emotional (a : mental_answers) : Q :=
  ((#(emotional_awareness a) + #(social_skills a) + #(empathy_level a)) / 3 * 10
   + #(rating_score (emotional_regulation a))) / 2.
Definition mindset (a : mental_answers) : Q :=
  (#(growth_score (growth_mindset a)) + #(self_confidence a) * 10
   + #(rating_score (resilience a))) / 3.
Definition mental_raw (a : mental_answers) : Q :=
  0.30 * cognitive a + 0.35 * emotional a + 0.35 * mindset a.
Definition mental (a : mental_answers) : Q := Qclamp (mental_raw a).

Definition wealth (a : financial_answers) : Q :=
  (#(income_score (income_range a)) + #(savings_score (savings_rate a))) / 2.
Definition stability (a : financial_answers) : Q :=
  (#(debt_score (debt_situation a)) + #(emergency_score (emergency_fund a))) / 2.
Definition investment (a : financial_answers) : Q :=
  #(experience_score (investment_experience a)).
Definition money_mindset (a : financial_answers) : Q :=
  ((10 - #(money_stress a)) * 10 + #(money_confidence a) * 10) / 2.
Definition financial_raw (a : financial_answers) : Q :=
  0.30 * wealth a + 0.25 * stability a + 0.20 * investment a + 0.25 * money_mindset a.
Definition financial (a : financial_answers) : Q := Qclamp (financial_raw a).

Definition overall (a : answer_set) : Q :=
  0.33 * biological (biological_answers a) + 0.33 * mental (mental_answers_of a)
  + 0.34 * financial (financial_answers_of a).

(** The four scores of an answer set. *)
Record category_scores : Type := {
  sc_biological : Q;
  sc_mental : Q;
  sc_financial : Q;
  sc_overall : Q
}.

Definition score (a : answer_set) : category_scores :=
  {| sc_biological := biological (biological_answers a);
     sc_mental := mental (mental_answers_of a);
     sc_financial := financial (financial_answers_of a);
     sc_overall := overall a |}.

(** ** Ranges *)

(** Put the range of every contribution of the goal in the context. *)
Ltac score_bounds :=
  repeat match goal with
  | |- context [inject_Z (?f ?x)] =>
      lazymatch goal with
      | _ : (0 <= f x <= 100)%Z |- _ => fail
      | _ => let H := fresh "Hs" in pose proof (score_range (f := f) x) as H
      end
  end.

Lemma bio_parts_pct (a : bio_answers) :
  bio_ranges a -> pct (sleep a) /\ pct (energy a) /\ pct (stress a) /\ pct (nutrition a).
Proof.
  unfold bio_ranges, sleep, energy, stress, nutrition. intros H. score_bounds.
  repeat split; qlra.
Qed.

Lemma mental_parts_pct (a : mental_answers) :
  mental_ranges a -> pct (cognitive a) /\ pct (emotional a) /\ pct (mindset a).
Proof.
  unfold mental_ranges, cognitive, emotional, mindset. intros H. score_bounds.
  repeat split; qlra.
Qed.

Lemma financial_parts_pct (a : financial_answers) :
  financial_ranges a ->
  pct (wealth a) /\ pct (stability a) /\ pct (investment a) /\ pct (money_mindset a).
Proof.
  unfold financial_ranges, wealth, stability, investment, money_mindset. intros H.
  score_bounds. repeat split; qlra.
Qed.

(** On answers in range the weighted sums are already percentages, so
    the clamps of section 4.1 never act. *)
Lemma biological_unclamped (a : bio_answers) :
  bio_ranges a -> pct (biological_raw a) /\ biological a == biological_raw a.
Proof.
  intros H. destruct (bio_parts_pct a H) as (H1 & H2 & H3 & H4).
  assert (pct (biological_raw a)) by (unfold biological_raw; qlra).
  split; [assumption | apply Qclamp_id; assumption].
Qed.

Lemma mental_unclamped (a : mental_answers) :
  mental_ranges a -> pct (mental_raw a) /\ mental a == mental_raw a.
Proof.
  intros H. destruct (mental_parts_pct a H) as (H1 & H2 & H3).
  assert (pct (mental_raw a)) by (unfold mental_raw; qlra).
  split; [assumption | apply Qclamp_id; assumption].
Qed.

Lemma financial_unclamped (a : financial_answers) :
  financial_ranges a -> pct (financial_raw a) /\ financial a == financial_raw a.
Proof.
  intros H. destruct (financial_parts_pct a H) as (H1 & H2 & H3 & H4).
  assert (pct (financial_raw a)) by (unfold financial_raw; qlra).
  split; [assumption | apply Qclamp_id; assumption].
Qed.

End Spec.
