(* ===== verification/Refinement.v ===== *)
(** * The scoring engine refines its specification

    This file links the code ([Scoring.calculate_scores] on the dicts the
    forms build, [Forms]) to the abstract specification ([Spec]):
    - the option lists of the forms are exactly the labels of the
      specification's scales, and each lookup table of the code maps a
      label to the specification's contribution ([*_lookup]);
    - the wake-refreshed options are none of them a key of [quality_map],
      so [quality_map.get(..., 50)] always yields 50 ([wake_lookup]);
    - a valid form decodes to typed answers ([*_form_decode]);
    - on the dicts of valid forms [calculate_scores] returns, without
      exception, the specification's scores for the decoded answers with
      wake-refreshed read as "Sometimes" ([calculate_scores_refines]). *)

From Stdlib Require Import ZArith QArith String.
From stdpp Require Import base finite gmap strings list sets.
From S2P Require Import Prelude PyValue Tables Scoring Forms Spec.

Import Spec.
#[local] Arguments inject_Z : simpl never.
Local Open Scope string_scope.

(** ** Labels and tables *)

Lemma quality_lookup (r : rating) :
  table_getitem quality_map (VStr (rating_label r)) = ret (VInt (rating_score r)).
Proof. destruct r; reflexivity. Qed.
Lemma crash_lookup (c : crashes) :
  table_getitem crash_map (VStr (crashes_label c)) = ret (VInt (crashes_score c)).
Proof. destruct c; reflexivity. Qed.
Lemma recovery_lookup (r : recovery) :
  table_getitem recovery_map (VStr (recovery_label r)) = ret (VInt (recovery_score r)).
Proof. destruct r; reflexivity. Qed.
Lemma hydration_lookup (h : hydration_level) :
  table_getitem hydration_map (VStr (hydration_label h)) = ret (VInt (hydration_score h)).
Proof. destruct h; reflexivity. Qed.
Lemma exercise_lookup (e : exercise) :
  table_getitem exercise_map (VStr (exercise_label e)) = ret (VInt (exercise_score e)).
Proof. destruct e; reflexivity. Qed.
Lemma focus_lookup (f : focus) :
  table_getitem focus_map (VStr (focus_label f)) = ret (VInt (focus_score f)).
Proof. destruct f; reflexivity. Qed.
Lemma growth_lookup (g : growth) :
  table_getitem growth_map (VStr (growth_label g)) = ret (VInt (growth_score g)).
Proof. destruct g; reflexivity. Qed.
Lemma income_lookup (i : income) :
  table_getitem income_map (VStr (income_label i)) = ret (VInt (income_score i)).
Proof. destruct i; reflexivity. Qed.
Lemma savings_lookup (s : savings) :
  table_getitem savings_map (VStr (savings_label s)) = ret (VInt (savings_score s)).
Proof. destruct s; reflexivity. Qed.
Lemma debt_lookup (d : debt) :
  table_getitem debt_map (VStr (debt_label d)) = ret (VInt (debt_score d)).
Proof. destruct d; reflexivity. Qed.
Lemma emergency_lookup (e : emergency) :
  table_getitem emergency_map (VStr (emergency_label e)) = ret (VInt (emergency_score e)).
Proof. destruct e; reflexivity. Qed.
Lemma experience_lookup (e : experience) :
  table_getitem exp_map (VStr (experience_label e)) = ret (VInt (experience_score e)).
Proof. destruct e; reflexivity. Qed.

(** No wake-refreshed option is a key of [quality_map]: the default 50
    of [quality_map.get(bio_data['wake_refreshed'], 50)] is always taken. *)
Lemma wake_lookup (w : refresh) :
  table_get quality_map (VStr (refresh_label w)) 50 = ret (VInt 50).
Proof. destruct w; reflexivity. Qed.

#[export] Hint Rewrite quality_lookup crash_lookup recovery_lookup hydration_lookup
  exercise_lookup focus_lookup growth_lookup income_lookup savings_lookup debt_lookup
  emergency_lookup experience_lookup wake_lookup : h20_lookup.

(** ** Forms and typed answers *)

(** The typed answers [a] are what the submitted form [f] shows. *)
Definition bio_matches (a : bio_answers) (f : bio_form) : Prop :=
  bio_sleep_hours f = sleep_hours a /\
  bio_sleep_quality f = rating_label (sleep_quality a) /\
  bio_wake_refreshed f = refresh_label (wake_refreshed a) /\
  bio_energy_morning f = energy_morning a /\
  bio_energy_afternoon f = energy_afternoon a /\
  bio_energy_evening f = energy_evening a /\
  bio_energy_crashes f = crashes_label (energy_crashes a) /\
  bio_stress_level f = stress_level a /\
  bio_stress_management f = rating_label (stress_management a) /\
  bio_recovery_time f = recovery_label (recovery_time a) /\
  bio_nutrition_quality f = rating_label (nutrition_quality a) /\
  bio_hydration f = hydration_label (hydration a) /\
  bio_exercise_frequency f = exercise_label (exercise_frequency a).

(** The code reads every wake-refreshed answer as the middle of the
    scale. *)
Definition wake_as_sometimes (a : bio_answers) : bio_answers :=
  {| sleep_hours := sleep_hours a; sleep_quality := sleep_quality a;
     wake_refreshed := RSometimes; energy_morning := energy_morning a;
     energy_afternoon := energy_afternoon a; energy_evening := energy_evening a;
     energy_crashes := energy_crashes a; stress_level := stress_level a;
     stress_management := stress_management a; recovery_time := recovery_time a;
     nutrition_quality := nutrition_quality a; hydration := hydration a;
     exercise_frequency := exercise_frequency a |}.

(** Equalities of rationals with literal divisions. *)
Ltac qeq := qlits; autorewrite with h20_rw; qlits; ring.

Section BioBlocks.
Context (a : bio_answers) (f : bio_form) (Hm : bio_matches a f).

(** Evaluate one block on the dict of [f]. *)
Ltac bio_block :=
  pose proof Hm as H; unfold bio_matches in H; destruct_and! H; unfold biological_data;
  repeat match goal with H : _ f = _ |- _ => rewrite H; clear H end;
  py_run; py_conclude.

Lemma sleep_score_refines :
  exists v, sleep_score (EDict (biological_data f)) = inr v /\
            is_num v (sleep (wake_as_sometimes a)).
Proof. unfold sleep_score. bio_block. unfold sleep. cbn. qeq. Qed.

Lemma energy_score_refines :
  exists v, energy_score (EDict (biological_data f)) = inr v /\ is_num v (energy a).
Proof. unfold energy_score. bio_block. unfold energy. qeq. Qed.

Lemma stress_score_refines :
  exists v, stress_score (EDict (biological_data f)) = inr v /\ is_num v (stress a).
Proof. unfold stress_score. bio_block. unfold stress. qeq. Qed.

Lemma nutrition_score_refines :
  exists v, nutrition_score (EDict (biological_data f)) = inr v /\ is_num v (nutrition a).
Proof. unfold nutrition_score. bio_block. unfold nutrition. qeq. Qed.

Lemma biological_score_refines :
  exists v, biological_score (EDict (biological_data f)) = inr v /\
            is_num v (biological (wake_as_sometimes a)).
Proof.
  unfold biological_score.
  use_block sleep_score_refines. use_block energy_score_refines.
  use_block stress_score_refines. use_block nutrition_score_refines.
  py_run. eapply clamp100_refines; [eassumption |].
  unfold biological. apply Qclamp_Proper. unfold biological_raw.
  change (energy (wake_as_sometimes a)) with (energy a).
  change (stress (wake_as_sometimes a)) with (stress a).
  change (nutrition (wake_as_sometimes a)) with (nutrition a).
  qlra.
Qed.
End BioBlocks.

Definition mental_matches (a : mental_answers) (f : mental_form) : Prop :=
  men_focus_duration f = focus_label (focus_duration a) /\
  men_mental_clarity f = mental_clarity a /\
  men_decision_making f = rating_label (decision_making a) /\
  men_memory_performance f = rating_label (memory_performance a) /\
  men_emotional_awareness f = emotional_awareness a /\
  men_emotional_regulation f = rating_label (emotional_regulation a) /\
  men_social_skills f = social_skills a /\
  men_empathy_level f = empathy_level a /\
  men_growth_mindset f = growth_label (growth_mindset a) /\
  men_self_confidence f = self_confidence a /\
  men_resilience f = rating_label (resilience a).

Section MentalBlocks.
Context (a : mental_answers) (f : mental_form) (Hm : mental_matches a f).

Ltac mental_block :=
  pose proof Hm as H; unfold mental_matches in H; destruct_and! H; unfold mental_data;
  repeat match goal with H : _ f = _ |- _ => rewrite H; clear H end;
  py_run; py_conclude.

Lemma cognitive_score_refines :
  exists v, cognitive_score (EDict (mental_data f)) = inr v /\ is_num v (cognitive a).
Proof. unfold cognitive_score. mental_block. unfold cognitive. qeq. Qed.

Lemma emotional_score_refines :
  exists v, emotional_score (EDict (mental_data f)) = inr v /\ is_num v (emotional a).
Proof. unfold emotional_score. mental_block. unfold emotional. qeq. Qed.

Lemma mindset_score_refines :
  exists v, mindset_score (EDict (mental_data f)) = inr v /\ is_num v (mindset a).
Proof. unfold mindset_score. mental_block. unfold mindset. qeq. Qed.

Lemma mental_score_refines :
  exists v, mental_score (EDict (mental_data f)) = inr v /\ is_num v (mental a).
Proof.
  unfold mental_score.
  use_block cognitive_score_refines. use_block emotional_score_refines.
  use_block mindset_score_refines.
  py_run. eapply clamp100_refines; [eassumption |].
  unfold mental. apply Qclamp_Proper. unfold mental_raw. qlra.
Qed.
End MentalBlocks.

Definition financial_matches (a : financial_answers) (f : financial_form) : Prop :=
  fin_income_range f = income_label (income_range a) /\
  fin_savings_rate f = savings_label (savings_rate a) /\
  fin_debt_situation f = debt_label (debt_situation a) /\
  fin_emergency_fund f = emergency_label (emergency_fund a) /\
  fin_investment_experience f = experience_label (investment_experience a) /\
  fin_money_stress f = money_stress a /\
  fin_money_confidence f = money_confidence a.

Section FinancialBlocks.
Context (a : financial_answers) (f : financial_form) (Hm : financial_matches a f).

Ltac financial_block :=
  pose proof Hm as H; unfold financial_matches in H; destruct_and! H; unfold financial_data;
  repeat match goal with H : _ f = _ |- _ => rewrite H; clear H end;
  py_run; py_conclude.

Lemma wealth_score_refines :
  exists v, wealth_score (EDict (financial_data f)) = inr v /\ is_num v (wealth a).
Proof. unfold wealth_score. financial_block. unfold wealth. qeq. Qed.

Lemma stability_score_refines :
  exists v, stability_score (EDict (financial_data f)) = inr v /\ is_num v (stability a).
Proof. unfold stability_score. financial_block. unfold stability. qeq. Qed.

Lemma investment_score_refines :
  exists v, investment_score (EDict (financial_data f)) = inr v /\ is_num v (investment a).
Proof. unfold investment_score. financial_block. reflexivity. Qed.

Lemma money_mindset_score_refines :
  exists v, money_mindset_score (EDict (financial_data f)) = inr v /\
            is_num v (money_mindset a).
Proof. unfold money_mindset_score. financial_block. unfold money_mindset. qeq. Qed.

Lemma financial_score_refines :
  exists v, financial_score (EDict (financial_data f)) = inr v /\ is_num v (financial a).
Proof.
  unfold financial_score.
  use_block wealth_score_refines. use_block stability_score_refines.
  use_block investment_score_refines. use_block money_mindset_score_refines.
  py_run. eapply clamp100_refines; [eassumption |].
  unfold financial. apply Qclamp_Proper. unfold financial_raw. qlra.
Qed.
End FinancialBlocks.

(** ** The whole engine *)

(** The answer set as the code scores it. *)
Definition code_view (a : answer_set) : answer_set :=
  {| biological_answers := wake_as_sometimes (biological_answers a);
     mental_answers_of := mental_answers_of a;
     financial_answers_of := financial_answers_of a |}.

(** The code's [scores] dict holds the numbers of [c]. *)
Definition scores_match (s : scores) (c : category_scores) : Prop :=
  is_num (Scoring.biological s) (sc_biological c) /\
  is_num (Scoring.mental s) (sc_mental c) /\
  is_num (Scoring.financial s) (sc_financial c) /\
  is_num (Scoring.overall s) (sc_overall c).

(** The answer dicts of [data] are those of three submitted forms. *)
Definition data_holds (data : gmap string entry)
    (fb : bio_form) (fm : mental_form) (ff : financial_form) : Prop :=
  data !! "biological" = Some (EDict (biological_data fb)) /\
  data !! "mental" = Some (EDict (mental_data fm)) /\
  data !! "financial" = Some (EDict (financial_data ff)).

Definition answers_match (a : answer_set)
    (fb : bio_form) (fm : mental_form) (ff : financial_form) : Prop :=
  bio_matches (biological_answers a) fb /\ mental_matches (mental_answers_of a) fm /\
  financial_matches (financial_answers_of a) ff.

Lemma calculate_scores_matches (a : answer_set) (fb : bio_form) (fm : mental_form)
    (ff : financial_form) (data : gmap string entry) :
  answers_match a fb fm ff -> data_holds data fb fm ff ->
  exists s, calculate_scores data = inr s /\ scores_match s (score (code_view a)).
Proof.
  intros (Hb & Hm & Hf) (Db & Dm & Df). unfold calculate_scores, data_getitem.
  rewrite Db; cbn [bind ret]. use_block (biological_score_refines _ _ Hb).
  rewrite Dm; cbn [bind ret]. use_block (mental_score_refines _ _ Hm).
  rewrite Df; cbn [bind ret]. use_block (financial_score_refines _ _ Hf).
  destruct (overall_score_num _ _ _ _ _ _ N N0 N1) as (o & Eo & No).
  rewrite Eo; cbn [bind ret]. eexists; split; [reflexivity |].
  unfold scores_match; simpl. repeat split.
  - exists r; auto.
  - exists r0; auto.
  - exists r1; auto.
  - exists (r * 0.33 + r0 * 0.33 + r1 * 0.34)%Q. split; [exact No |].
    unfold overall; simpl. qlra.
Qed.

(** ** Decoding valid forms *)

(** A select box whose options are the labels of a finite scale returns
    the label of some value of the scale. *)
Lemma select_label {A} `{Finite A} (label : A -> string) (opts : list string) (s : string) :
  label <$> enum A = opts -> select_ok opts s = true -> exists x, label x = s.
Proof.
  intros <- Hs. apply select_ok_elem, list_elem_of_fmap in Hs as (x & -> & _). eauto.
Qed.

(** Try the scale [T] (with labels [label]) on a select-box answer. *)
Ltac decode_select T label H opts s :=
  let Hl := fresh "Hl" in
  assert (Hl : label <$> enum T = opts) by reflexivity;
  destruct (select_label label opts s Hl H) as [? <-]; clear Hl.

Ltac decode_fields :=
  repeat match goal with
  | H : _ && _ = true |- _ => apply andb_true_iff in H as [? ?]
  | H : slider_ok _ _ _ = true |- _ => apply slider_ok_range in H
  | H : select_ok ?opts ?s = true |- _ =>
      first [ decode_select rating rating_label H opts s
            | decode_select refresh refresh_label H opts s
            | decode_select crashes crashes_label H opts s
            | decode_select recovery recovery_label H opts s
            | decode_select hydration_level hydration_label H opts s
            | decode_select exercise exercise_label H opts s
            | decode_select focus focus_label H opts s
            | decode_select growth growth_label H opts s
            | decode_select income income_label H opts s
            | decode_select savings savings_label H opts s
            | decode_select debt debt_label H opts s
            | decode_select emergency emergency_label H opts s
            | decode_select experience experience_label H opts s
            | clear H ]
  end.

Lemma bio_form_decode (f : bio_form) :
  bio_form_ok f = true -> exists a, bio_matches a f /\ bio_ranges a.
Proof.
  destruct f; unfold bio_form_ok; simpl. intros H. decode_fields.
  refine (ex_intro _ (Build_bio_answers _ _ _ _ _ _ _ _ _ _ _ _ _) _).
  unfold bio_matches, bio_ranges; simpl. repeat split; try reflexivity; lia.
Qed.

Lemma mental_form_decode (f : mental_form) :
  mental_form_ok f = true -> exists a, mental_matches a f /\ mental_ranges a.
Proof.
  destruct f; unfold mental_form_ok; simpl. intros H. decode_fields.
  refine (ex_intro _ (Build_mental_answers _ _ _ _ _ _ _ _ _ _ _) _).
  unfold mental_matches, mental_ranges; simpl. repeat split; try reflexivity; lia.
Qed.

Lemma financial_form_decode (f : financial_form) :
  financial_form_ok f = true -> exists a, financial_matches a f /\ financial_ranges a.
Proof.
  destruct f; unfold financial_form_ok; simpl. intros H. decode_fields.
  refine (ex_intro _ (Build_financial_answers _ _ _ _ _ _ _) _).
  unfold financial_matches, financial_ranges; simpl. repeat split; try reflexivity; lia.
Qed.

(** ** The engine on submitted forms *)

Lemma calculate_scores_forms (fb : bio_form) (fm : mental_form) (ff : financial_form)
    (data : gmap string entry) :
  bio_form_ok fb = true -> mental_form_ok fm = true -> financial_form_ok ff = true ->
  data_holds data fb fm ff ->
  exists a s, answers_ranges a /\ answers_match a fb fm ff /\
    calculate_scores data = inr s /\ scores_match s (score (code_view a)).
Proof.
  intros Hb Hm Hf Hd.
  destruct (bio_form_decode fb Hb) as (ab & Mb & Rb).
  destruct (mental_form_decode fm Hm) as (am & Mm & Rm).
  destruct (financial_form_decode ff Hf) as (af & Mf & Rf).
  set (a := {| biological_answers := ab; mental_answers_of := am; financial_answers_of := af |}).
  assert (Ma : answers_match a fb fm ff) by exact (conj Mb (conj Mm Mf)).
  destruct (calculate_scores_matches a fb fm ff data Ma Hd) as (s & Hs & Hms).
  exists a, s. exact (conj (conj Rb (conj Rm Rf)) (conj Ma (conj Hs Hms))).
Qed.

(** C2. On the answer dicts of any three valid form submissions,
    [calculate_scores] raises no exception and returns, as numbers, the
    four scores of the specification for the answers the forms show,
    with the wake-refreshed answer read as "Sometimes" whatever it is. *)
Theorem calculate_scores_refines (fb : bio_form) (fm : mental_form) (ff : financial_form)
    (data : gmap string entry) :
  bio_form_ok fb = true -> mental_form_ok fm = true -> financial_form_ok ff = true ->
  data_holds data fb fm ff ->
  exists a s, answers_ranges a /\ answers_match a fb fm ff /\
    calculate_scores data = inr s /\ scores_match s (score (code_view a)).
Proof.
  intros Hb Hm Hf Hd. exact (calculate_scores_forms fb fm ff data Hb Hm Hf Hd).
Qed.

Lemma calculate_scores_refines_witness :
  bio_form_ok example_bio_form = true /\ mental_form_ok example_mental_form = true /\
  financial_form_ok example_financial_form = true /\
  data_holds example_data example_bio_form example_mental_form example_financial_form /\
  exists a s, answers_ranges a /\
    answers_match a example_bio_form example_mental_form example_financial_form /\
    calculate_scores example_data = inr s /\ scores_match s (score (code_view a)).
Proof.
  assert (Hd : data_holds example_data example_bio_form example_mental_form
                 example_financial_form) by (repeat split; reflexivity).
  split; [reflexivity | split; [reflexivity | split; [reflexivity | split; [exact Hd |]]]].
  apply calculate_scores_refines; [reflexivity | reflexivity | reflexivity | exact Hd].
Defined.

(** Keep the kernel from evaluating the clamps when it compares scores. *)
#[local] Strategy expand [score code_view].
#[local] Opaque biological biological_raw mental mental_raw financial financial_raw.

(** C9. On valid form submissions no clamp of [calculate_scores] ever
    acts: each category score is the number the unclamped weighted sum
    of section 4.1 gives, and that sum already lies in [0,100]. *)
Theorem calculate_scores_unclamped (fb : bio_form) (fm : mental_form) (ff : financial_form)
    (data : gmap string entry) :
  bio_form_ok fb = true -> mental_form_ok fm = true -> financial_form_ok ff = true ->
  data_holds data fb fm ff ->
  exists a s, answers_match a fb fm ff /\ calculate_scores data = inr s /\
    is_num (Scoring.biological s) (biological_raw (wake_as_sometimes (biological_answers a))) /\
    is_num (Scoring.mental s) (mental_raw (mental_answers_of a)) /\
    is_num (Scoring.financial s) (financial_raw (financial_answers_of a)) /\
    pct (biological_raw (wake_as_sometimes (biological_answers a))) /\
    pct (mental_raw (mental_answers_of a)) /\ pct (financial_raw (financial_answers_of a)).
Proof.
  intros Hb Hm Hf Hd.
  destruct (calculate_scores_forms fb fm ff data Hb Hm Hf Hd)
    as (a & s & (Rb & Rm & Rf) & Ma & Hs & (Sb & Sm & Sf & _)).
  destruct (biological_unclamped (wake_as_sometimes (biological_answers a)) Rb) as (Pb & Eb).
  destruct (mental_unclamped _ Rm) as (Pm & Em).
  destruct (financial_unclamped _ Rf) as (Pf & Ef).
  change (is_num (Scoring.biological s) (biological (wake_as_sometimes (biological_answers a))))
    in Sb.
  change (is_num (Scoring.mental s) (mental (mental_answers_of a))) in Sm.
  change (is_num (Scoring.financial s) (financial (financial_answers_of a))) in Sf.
  rewrite Eb in Sb. rewrite Em in Sm. rewrite Ef in Sf.
  exists a, s. exact (conj Ma (conj Hs (conj Sb (conj Sm (conj Sf (conj Pb (conj Pm Pf))))))).
Qed.

Lemma calculate_scores_unclamped_witness :
  bio_form_ok example_bio_form = true /\ mental_form_ok example_mental_form = true /\
  financial_form_ok example_financial_form = true /\
  data_holds example_data example_bio_form example_mental_form example_financial_form /\
  exists a s, answers_match a example_bio_form example_mental_form example_financial_form /\
    calculate_scores example_data = inr s /\
    is_num (Scoring.biological s) (biological_raw (wake_as_sometimes (biological_answers a))) /\
    is_num (Scoring.mental s) (mental_raw (mental_answers_of a)) /\
    is_num (Scoring.financial s) (financial_raw (financial_answers_of a)) /\
    pct (biological_raw (wake_as_sometimes (biological_answers a))) /\
    pct (mental_raw (mental_answers_of a)) /\ pct (financial_raw (financial_answers_of a)).
Proof.
  assert (Hd : data_holds example_data example_bio_form example_mental_form
                 example_financial_form) by (repeat split; reflexivity).
  split; [reflexivity | split; [reflexivity | split; [reflexivity | split; [exact Hd |]]]].
  apply calculate_scores_unclamped; [reflexivity | reflexivity | reflexivity | exact Hd].
Defined.
