(* ===== verification/Errors.v ===== *)
(** * Missing and invalid answers: the [KeyError]s of [calculate_scores]

    [calculate_scores] (src/human_2_0_assessment_bot.py, lines 478-567)
    reads each answer with a subscript [bio_data['...']] and looks most
    categorical answers up with [table[label]], so an answer dict that
    lacks a key raises [KeyError] with that key, a label outside its
    table raises [KeyError] with the label, and no later line runs.
    This file lists the keys each comment block of the function reads
    ([*_keys]) and the table of each looked-up key ([key_table]), proves
    that a block only depends on the keys it reads ([*_agree]), and
    that, on the dicts of valid forms, a missing key or an unknown label
    makes [calculate_scores] raise the [KeyError] Python raises
    ([missing_answer_raises], [invalid_label_raises]); the answers no
    line reads (the limiting beliefs and six of the financial answers)
    can be missing without any effect ([unread_answers_ignored]).  The
    failing block is run symbolically up to the failing subscript with
    the tactics of [PyValue]; the blocks before it are discharged by the
    refinement lemmas of [Refinement]. *)

From Stdlib Require Import ZArith QArith String.
From stdpp Require Import base gmap strings list sets.
From S2P Require Import Prelude PyValue Tables Forms Scoring Spec Refinement.

Import Spec.
#[local] Arguments inject_Z : simpl never.
Local Open Scope string_scope.

(** ** The keys each block reads (lines 486-559) *)

Definition sleep_keys : list string := ["sleep_hours"; "sleep_quality"; "wake_refreshed"].
Definition energy_keys : list string :=
  ["energy_morning"; "energy_afternoon"; "energy_evening"; "energy_crashes"].
Definition stress_keys : list string := ["stress_level"; "stress_management"; "recovery_time"].
Definition nutrition_keys : list string := ["nutrition_quality"; "hydration"; "exercise_frequency"].
Definition cognitive_keys : list string :=
  ["focus_duration"; "mental_clarity"; "decision_making"; "memory_performance"].
Definition emotional_keys : list string :=
  ["emotional_awareness"; "social_skills"; "empathy_level"; "emotional_regulation"].
Definition mindset_keys : list string := ["growth_mindset"; "self_confidence"; "resilience"].
Definition wealth_keys : list string := ["income_range"; "savings_rate"].
Definition stability_keys : list string := ["debt_situation"; "emergency_fund"].
Definition investment_keys : list string := ["investment_experience"].
Definition money_mindset_keys : list string := ["money_stress"; "money_confidence"].

Definition bio_read_keys : list string := sleep_keys ++ energy_keys ++ stress_keys ++ nutrition_keys.
Definition mental_read_keys : list string := cognitive_keys ++ emotional_keys ++ mindset_keys.
Definition financial_read_keys : list string :=
  wealth_keys ++ stability_keys ++ investment_keys ++ money_mindset_keys.

(** The table each subscripted categorical answer is looked up in
    (lines 489-556); the wake-refreshed answer goes through
    [quality_map.get] (line 490) and has no entry. *)
Definition table_keys : list (string * table) :=
  [("sleep_quality", quality_map); ("energy_crashes", crash_map);
   ("stress_management", quality_map); ("recovery_time", recovery_map);
   ("nutrition_quality", quality_map); ("hydration", hydration_map);
   ("exercise_frequency", exercise_map); ("focus_duration", focus_map);
   ("decision_making", quality_map); ("memory_performance", quality_map);
   ("emotional_regulation", quality_map); ("growth_mindset", growth_map);
   ("resilience", quality_map); ("income_range", income_map); ("savings_rate", savings_map);
   ("debt_situation", debt_map); ("emergency_fund", emergency_map);
   ("investment_experience", exp_map)].

Definition key_table (k : string) : option table :=
  snd <$> List.find (fun p => String.eqb p.1 k) table_keys.

(** ** Blocks read only their keys *)

(** Two answer dicts that agree on the keys [ks]. *)
Definition agree_on (ks : list string) (d1 d2 : gmap string pyval) : Prop :=
  Forall (fun k => d1 !! k = d2 !! k) ks.

Lemma entry_getitem_agree (d1 d2 : gmap string pyval) (k : string) :
  d1 !! k = d2 !! k -> entry_getitem (EDict d1) k = entry_getitem (EDict d2) k.
Proof. intros H. simpl. unfold getitem. rewrite H. reflexivity. Qed.

Lemma entry_getitem_delete_eq (d : gmap string pyval) (k : string) :
  entry_getitem (EDict (delete k d)) k = raise (KeyError (VStr k)).
Proof. simpl. unfold getitem. rewrite lookup_delete_eq. reflexivity. Qed.

Lemma table_getitem_missing (T : table) (x : string) :
  T !! x = None -> table_getitem T (VStr x) = raise (KeyError (VStr x)).
Proof. intros H. simpl. rewrite H. reflexivity. Qed.

Lemma agree_delete (ks : list string) (d : gmap string pyval) (k : string) :
  k ∉ ks -> agree_on ks (delete k d) d.
Proof.
  intros Hk. apply Forall_forall. intros k' Hk'. apply lookup_delete_ne.
  intros ->. contradiction.
Qed.

Lemma agree_insert (ks : list string) (d : gmap string pyval) (k : string) (v : pyval) :
  k ∉ ks -> agree_on ks (<[k := v]> d) d.
Proof.
  intros Hk. apply Forall_forall. intros k' Hk'. apply lookup_insert_ne.
  intros ->. contradiction.
Qed.

Lemma agree_app (ks1 ks2 : list string) (d1 d2 : gmap string pyval) :
  agree_on (ks1 ++ ks2) d1 d2 -> agree_on ks1 d1 d2 /\ agree_on ks2 d1 d2.
Proof. unfold agree_on. rewrite Forall_app. tauto. Qed.

(** A block run on dicts that agree on the keys it subscripts. *)
Ltac block_frame :=
  intros Hag; unfold agree_on in Hag;
  repeat match goal with H : Forall _ (_ :: _) |- _ => inversion_clear H end;
  repeat match goal with
         | H : ?d1 !! ?k = ?d2 !! ?k |- _ => rewrite (entry_getitem_agree d1 d2 k H); clear H
         end;
  reflexivity.

Section Frames.
Context (d1 d2 : gmap string pyval).

Lemma sleep_score_agree :
  agree_on sleep_keys d1 d2 -> sleep_score (EDict d1) = sleep_score (EDict d2).
Proof. unfold sleep_score, sleep_keys. block_frame. Qed.
Lemma energy_score_agree :
  agree_on energy_keys d1 d2 -> energy_score (EDict d1) = energy_score (EDict d2).
Proof. unfold energy_score, energy_keys. block_frame. Qed.
Lemma stress_score_agree :
  agree_on stress_keys d1 d2 -> stress_score (EDict d1) = stress_score (EDict d2).
Proof. unfold stress_score, stress_keys. block_frame. Qed.
Lemma nutrition_score_agree :
  agree_on nutrition_keys d1 d2 -> nutrition_score (EDict d1) = nutrition_score (EDict d2).
Proof. unfold nutrition_score, nutrition_keys. block_frame. Qed.
Lemma cognitive_score_agree :
  agree_on cognitive_keys d1 d2 -> cognitive_score (EDict d1) = cognitive_score (EDict d2).
Proof. unfold cognitive_score, cognitive_keys. block_frame. Qed.
Lemma emotional_score_agree :
  agree_on emotional_keys d1 d2 -> emotional_score (EDict d1) = emotional_score (EDict d2).
Proof. unfold emotional_score, emotional_keys. block_frame. Qed.
Lemma mindset_score_agree :
  agree_on mindset_keys d1 d2 -> mindset_score (EDict d1) = mindset_score (EDict d2).
Proof. unfold mindset_score, mindset_keys. block_frame. Qed.
Lemma wealth_score_agree :
  agree_on wealth_keys d1 d2 -> wealth_score (EDict d1) = wealth_score (EDict d2).
Proof. unfold wealth_score, wealth_keys. block_frame. Qed.
Lemma stability_score_agree :
  agree_on stability_keys d1 d2 -> stability_score (EDict d1) = stability_score (EDict d2).
Proof. unfold stability_score, stability_keys. block_frame. Qed.
Lemma investment_score_agree :
  agree_on investment_keys d1 d2 -> investment_score (EDict d1) = investment_score (EDict d2).
Proof. unfold investment_score, investment_keys. block_frame. Qed.
Lemma money_mindset_score_agree :
  agree_on money_mindset_keys d1 d2 -> money_mindset_score (EDict d1) = money_mindset_score (EDict d2).
Proof. unfold money_mindset_score, money_mindset_keys. block_frame. Qed.

(** A whole category reads its blocks' keys and nothing else. *)
Lemma biological_score_agree :
  agree_on bio_read_keys d1 d2 -> biological_score (EDict d1) = biological_score (EDict d2).
Proof.
  unfold bio_read_keys. intros H.
  apply agree_app in H as [H1 H]. apply agree_app in H as [H2 H]. apply agree_app in H as [H3 H4].
  unfold biological_score.
  rewrite sleep_score_agree, energy_score_agree, stress_score_agree, nutrition_score_agree
    by assumption.
  reflexivity.
Qed.

Lemma mental_score_agree :
  agree_on mental_read_keys d1 d2 -> mental_score (EDict d1) = mental_score (EDict d2).
Proof.
  unfold mental_read_keys. intros H.
  apply agree_app in H as [H1 H]. apply agree_app in H as [H2 H3].
  unfold mental_score.
  rewrite cognitive_score_agree, emotional_score_agree, mindset_score_agree by assumption.
  reflexivity.
Qed.

Lemma financial_score_agree :
  agree_on financial_read_keys d1 d2 -> financial_score (EDict d1) = financial_score (EDict d2).
Proof.
  unfold financial_read_keys. intros H.
  apply agree_app in H as [H1 H]. apply agree_app in H as [H2 H]. apply agree_app in H as [H3 H4].
  unfold financial_score.
  rewrite wealth_score_agree, stability_score_agree, investment_score_agree,
    money_mindset_score_agree by assumption.
  reflexivity.
Qed.

End Frames.

(** ** A missing key in the dict of a valid form *)

(** Split [k ∈ [k1; ...; kn]] into the [n] cases [k = ki]. *)
Ltac key_cases H :=
  cbn [app] in H;
  repeat (apply elem_of_cons in H as [-> | H]);
  [.. | apply elem_of_nil in H; contradiction].

(** A literal key outside a literal list. *)
Ltac key_notin := apply (bool_decide_unpack _); vm_compute; reflexivity.

(** Rewrite the fields of the form [f] into the labels of its answers. *)
Ltac form_fields Hm matches data f :=
  let H := fresh "H" in
  pose proof Hm as H; unfold matches in H; destruct_and! H; unfold data;
  repeat match goal with E : _ f = _ |- _ => rewrite E; clear E end.

(** Run a block that does not read the changed key with its refinement
    lemma ([agree] shows the dicts agree on its keys), or run the block
    that does up to the failing step and close with [finish]. *)
Ltac block_or_fail agree finish frame refines block fields :=
  first [ erewrite frame by (agree; key_notin); use_block refines
        | unfold block; fields; py_run; finish ].

(** The four blocks of the biological score, in the order of the code. *)
Ltac bio_blocks a f Hm agree finish :=
  unfold biological_score;
  block_or_fail agree finish sleep_score_agree (sleep_score_refines a f Hm) sleep_score
    ltac:(form_fields Hm bio_matches biological_data f);
  block_or_fail agree finish energy_score_agree (energy_score_refines a f Hm) energy_score
    ltac:(form_fields Hm bio_matches biological_data f);
  block_or_fail agree finish stress_score_agree (stress_score_refines a f Hm) stress_score
    ltac:(form_fields Hm bio_matches biological_data f);
  block_or_fail agree finish nutrition_score_agree (nutrition_score_refines a f Hm)
    nutrition_score ltac:(form_fields Hm bio_matches biological_data f).

Ltac mental_blocks a f Hm agree finish :=
  unfold mental_score;
  block_or_fail agree finish cognitive_score_agree (cognitive_score_refines a f Hm)
    cognitive_score ltac:(form_fields Hm mental_matches mental_data f);
  block_or_fail agree finish emotional_score_agree (emotional_score_refines a f Hm)
    emotional_score ltac:(form_fields Hm mental_matches mental_data f);
  block_or_fail agree finish mindset_score_agree (mindset_score_refines a f Hm)
    mindset_score ltac:(form_fields Hm mental_matches mental_data f).

Ltac financial_blocks a f Hm agree finish :=
  unfold financial_score;
  block_or_fail agree finish wealth_score_agree (wealth_score_refines a f Hm) wealth_score
    ltac:(form_fields Hm financial_matches financial_data f);
  block_or_fail agree finish stability_score_agree (stability_score_refines a f Hm)
    stability_score ltac:(form_fields Hm financial_matches financial_data f);
  block_or_fail agree finish investment_score_agree (investment_score_refines a f Hm)
    investment_score ltac:(form_fields Hm financial_matches financial_data f);
  block_or_fail agree finish money_mindset_score_agree (money_mindset_score_refines a f Hm)
    money_mindset_score ltac:(form_fields Hm financial_matches financial_data f).

(** The finishing steps: a subscript of the deleted key, or a table
    lookup of a label the table does not have. *)
Ltac finish_missing := rewrite entry_getitem_delete_eq; reflexivity.
Ltac finish_invalid Hx := rewrite (table_getitem_missing _ _ Hx); reflexivity.

(** Split the hypotheses of an invalid-label lemma into the cases of the
    key, discarding the keys that no table is subscripted with. *)
Ltac invalid_cases Hk HT :=
  key_cases Hk;
  cbv [key_table table_keys List.find fst snd fmap option_fmap option_map
       String.eqb Ascii.eqb Bool.eqb] in HT;
  try discriminate HT; injection HT as <-.

Section BioErrors.
Context (a : bio_answers) (f : bio_form) (Hm : bio_matches a f).

Lemma biological_score_missing (k : string) :
  k ∈ bio_read_keys ->
  biological_score (EDict (delete k (biological_data f))) = raise (KeyError (VStr k)).
Proof.
  unfold bio_read_keys, sleep_keys, energy_keys, stress_keys, nutrition_keys.
  intros Hk; key_cases Hk; bio_blocks a f Hm ltac:(apply agree_delete) finish_missing.
Qed.

Lemma biological_score_invalid (k x : string) (T : table) :
  k ∈ bio_read_keys -> key_table k = Some T -> T !! x = None ->
  biological_score (EDict (<[k := VStr x]> (biological_data f))) = raise (KeyError (VStr x)).
Proof.
  unfold bio_read_keys, sleep_keys, energy_keys, stress_keys, nutrition_keys.
  intros Hk HT Hx; invalid_cases Hk HT;
    bio_blocks a f Hm ltac:(apply agree_insert) ltac:(finish_invalid Hx).
Qed.

End BioErrors.

Section MentalErrors.
Context (a : mental_answers) (f : mental_form) (Hm : mental_matches a f).

Lemma mental_score_missing (k : string) :
  k ∈ mental_read_keys ->
  mental_score (EDict (delete k (mental_data f))) = raise (KeyError (VStr k)).
Proof.
  unfold mental_read_keys, cognitive_keys, emotional_keys, mindset_keys.
  intros Hk; key_cases Hk; mental_blocks a f Hm ltac:(apply agree_delete) finish_missing.
Qed.

Lemma mental_score_invalid (k x : string) (T : table) :
  k ∈ mental_read_keys -> key_table k = Some T -> T !! x = None ->
  mental_score (EDict (<[k := VStr x]> (mental_data f))) = raise (KeyError (VStr x)).
Proof.
  unfold mental_read_keys, cognitive_keys, emotional_keys, mindset_keys.
  intros Hk HT Hx; invalid_cases Hk HT;
    mental_blocks a f Hm ltac:(apply agree_insert) ltac:(finish_invalid Hx).
Qed.

End MentalErrors.

Section FinancialErrors.
Context (a : financial_answers) (f : financial_form) (Hm : financial_matches a f).

Lemma financial_score_missing (k : string) :
  k ∈ financial_read_keys ->
  financial_score (EDict (delete k (financial_data f))) = raise (KeyError (VStr k)).
Proof.
  unfold financial_read_keys, wealth_keys, stability_keys, investment_keys, money_mindset_keys.
  intros Hk; key_cases Hk; financial_blocks a f Hm ltac:(apply agree_delete) finish_missing.
Qed.

Lemma financial_score_invalid (k x : string) (T : table) :
  k ∈ financial_read_keys -> key_table k = Some T -> T !! x = None ->
  financial_score (EDict (<[k := VStr x]> (financial_data f))) = raise (KeyError (VStr x)).
Proof.
  unfold financial_read_keys, wealth_keys, stability_keys, investment_keys, money_mindset_keys.
  intros Hk HT Hx; invalid_cases Hk HT;
    financial_blocks a f Hm ltac:(apply agree_insert) ltac:(finish_invalid Hx).
Qed.

End FinancialErrors.

(** ** A failing category fails [calculate_scores] *)

Section Categories.
Context (fb : bio_form) (fm : mental_form) (ff : financial_form) (data : gmap string entry).
Context (Hb : bio_form_ok fb = true) (Hm : mental_form_ok fm = true).
Context (Hd : data_holds data fb fm ff).

Lemma calculate_scores_bio_raises (bd : gmap string pyval) (e : exc) :
  biological_score (EDict bd) = raise e ->
  calculate_scores (<["biological" := EDict bd]> data) = raise e.
Proof.
  intros H. unfold calculate_scores, data_getitem. rewrite lookup_insert_eq. cbn [bind ret].
  rewrite H. reflexivity.
Qed.

Lemma calculate_scores_mental_raises (md : gmap string pyval) (e : exc) :
  mental_score (EDict md) = raise e ->
  calculate_scores (<["mental" := EDict md]> data) = raise e.
Proof.
  intros H. destruct Hd as (Db & _ & _). destruct (bio_form_decode fb Hb) as (ab & Mb & _).
  unfold calculate_scores, data_getitem. rewrite lookup_insert_ne, Db by discriminate.
  cbn [bind ret]. use_block (biological_score_refines ab fb Mb).
  rewrite lookup_insert_eq. cbn [bind ret]. rewrite H. reflexivity.
Qed.

Lemma calculate_scores_financial_raises (fd : gmap string pyval) (e : exc) :
  financial_score (EDict fd) = raise e ->
  calculate_scores (<["financial" := EDict fd]> data) = raise e.
Proof.
  intros H. destruct Hd as (Db & Dm & _).
  destruct (bio_form_decode fb Hb) as (ab & Mb & _).
  destruct (mental_form_decode fm Hm) as (am & Mm & _).
  unfold calculate_scores, data_getitem. rewrite !lookup_insert_ne, Db, Dm by discriminate.
  cbn [bind ret]. use_block (biological_score_refines ab fb Mb).
  use_block (mental_score_refines am fm Mm).
  rewrite lookup_insert_eq. cbn [bind ret]. rewrite H. reflexivity.
Qed.

End Categories.

(** ** Missing, invalid and unread answers in [calculate_scores] *)

(** C7 (error): on the answer dicts of valid forms, removing any
    key that [calculate_scores] subscripts makes it raise [KeyError]
    naming that key: a missing answer is never defaulted (the spec's
    [MissingFieldError] is Python's [KeyError]), and no later block runs. *)
Theorem missing_answer_raises (fb : bio_form) (fm : mental_form) (ff : financial_form)
    (data : gmap string entry) (k : string) :
  bio_form_ok fb = true -> mental_form_ok fm = true -> financial_form_ok ff = true ->
  data_holds data fb fm ff ->
  (k ∈ bio_read_keys ->
   calculate_scores (<["biological" := EDict (delete k (biological_data fb))]> data)
   = raise (KeyError (VStr k))) /\
  (k ∈ mental_read_keys ->
   calculate_scores (<["mental" := EDict (delete k (mental_data fm))]> data)
   = raise (KeyError (VStr k))) /\
  (k ∈ financial_read_keys ->
   calculate_scores (<["financial" := EDict (delete k (financial_data ff))]> data)
   = raise (KeyError (VStr k))).
Proof.
  intros Hb Hm Hf Hd.
  destruct (bio_form_decode fb Hb) as (ab & Mb & _).
  destruct (mental_form_decode fm Hm) as (am & Mm & _).
  destruct (financial_form_decode ff Hf) as (af & Mf & _).
  split; [| split]; intros Hk.
  - apply (calculate_scores_bio_raises data), (biological_score_missing ab fb Mb k Hk).
  - apply (calculate_scores_mental_raises fb fm ff data Hb Hd),
      (mental_score_missing am fm Mm k Hk).
  - apply (calculate_scores_financial_raises fb fm ff data Hb Hm Hd),
      (financial_score_missing af ff Mf k Hk).
Qed.

(** C8 (error): on the answer dicts of valid forms, replacing the
    answer of a key that is looked up in a table by a label outside that
    table makes [calculate_scores] raise [KeyError] naming the label (the
    spec's [InvalidCategoryValue]); the wake-refreshed answer, read with
    [quality_map.get(..., 50)], is the one categorical answer this does
    not apply to ([key_table] has no entry for it). *)
Theorem invalid_label_raises (fb : bio_form) (fm : mental_form) (ff : financial_form)
    (data : gmap string entry) (k x : string) (T : table) :
  bio_form_ok fb = true -> mental_form_ok fm = true -> financial_form_ok ff = true ->
  data_holds data fb fm ff -> key_table k = Some T -> T !! x = None ->
  (k ∈ bio_read_keys ->
   calculate_scores (<["biological" := EDict (<[k := VStr x]> (biological_data fb))]> data)
   = raise (KeyError (VStr x))) /\
  (k ∈ mental_read_keys ->
   calculate_scores (<["mental" := EDict (<[k := VStr x]> (mental_data fm))]> data)
   = raise (KeyError (VStr x))) /\
  (k ∈ financial_read_keys ->
   calculate_scores (<["financial" := EDict (<[k := VStr x]> (financial_data ff))]> data)
   = raise (KeyError (VStr x))).
Proof.
  intros Hb Hm Hf Hd HT Hx.
  destruct (bio_form_decode fb Hb) as (ab & Mb & _).
  destruct (mental_form_decode fm Hm) as (am & Mm & _).
  destruct (financial_form_decode ff Hf) as (af & Mf & _).
  split; [| split]; intros Hk.
  - apply (calculate_scores_bio_raises data), (biological_score_invalid ab fb Mb k x T Hk HT Hx).
  - apply (calculate_scores_mental_raises fb fm ff data Hb Hd),
      (mental_score_invalid am fm Mm k x T Hk HT Hx).
  - apply (calculate_scores_financial_raises fb fm ff data Hb Hm Hd),
      (financial_score_invalid af ff Mf k x T Hk HT Hx).
Qed.

(** C14 (functional): an answer that no line of [calculate_scores]
    subscripts (the limiting beliefs, the investment portfolio, the
    financial goals, the wealth beliefs, the business status and revenue,
    the entrepreneurial interest) can be absent from its dict without
    changing the result or the exception of [calculate_scores]. *)
Theorem unread_answers_ignored (data : gmap string entry) (k : string) :
  (k ∉ bio_read_keys -> forall bd : gmap string pyval,
     calculate_scores (<["biological" := EDict (delete k bd)]> data)
     = calculate_scores (<["biological" := EDict bd]> data)) /\
  (k ∉ mental_read_keys -> forall md : gmap string pyval,
     calculate_scores (<["mental" := EDict (delete k md)]> data)
     = calculate_scores (<["mental" := EDict md]> data)) /\
  (k ∉ financial_read_keys -> forall fd : gmap string pyval,
     calculate_scores (<["financial" := EDict (delete k fd)]> data)
     = calculate_scores (<["financial" := EDict fd]> data)).
Proof.
  unfold calculate_scores, data_getitem. split; [| split]; intros Hk d.
  - rewrite !lookup_insert_eq, !(lookup_insert_ne _ "biological") by discriminate.
    cbn [bind ret]. rewrite (biological_score_agree (delete k d) d) by (apply agree_delete; exact Hk). reflexivity.
  - rewrite !lookup_insert_eq, !(lookup_insert_ne _ "mental") by discriminate.
    cbn [bind ret]. rewrite (mental_score_agree (delete k d) d) by (apply agree_delete; exact Hk). reflexivity.
  - rewrite !lookup_insert_eq, !(lookup_insert_ne _ "financial") by discriminate.
    cbn [bind ret]. rewrite (financial_score_agree (delete k d) d) by (apply agree_delete; exact Hk). reflexivity.
Qed.

Lemma missing_answer_raises_witness :
  calculate_scores (<["mental" := EDict (delete "resilience" (mental_data example_mental_form))]>
                      example_data) = raise (KeyError (VStr "resilience")).
Proof.
  refine (proj1 (proj2 (missing_answer_raises example_bio_form example_mental_form
                          example_financial_form example_data "resilience"
                          eq_refl eq_refl eq_refl _)) _).
  - repeat split; reflexivity.
  - repeat constructor.
Defined.

Lemma unread_answers_ignored_witness :
  calculate_scores (<["mental" := EDict (delete "limiting_beliefs" (mental_data example_mental_form))]>
                      example_data)
  = calculate_scores (<["mental" := EDict (mental_data example_mental_form)]> example_data).
Proof.
  refine (proj1 (proj2 (unread_answers_ignored example_data "limiting_beliefs")) _ _). key_notin.
Defined.

Lemma invalid_label_raises_witness :
  calculate_scores (<["biological" := EDict (<["hydration" := VStr "12 glasses"]>
                                              (biological_data example_bio_form))]> example_data)
  = raise (KeyError (VStr "12 glasses")).
Proof.
  refine (proj1 (invalid_label_raises example_bio_form example_mental_form example_financial_form
                   example_data "hydration" "12 glasses" hydration_map
                   eq_refl eq_refl eq_refl _ eq_refl eq_refl) _).
  - repeat split; reflexivity.
  - repeat constructor.
Defined.
