(* ===== verification/Profile.v ===== *)
(** * The bot's configuration: [Human20AssessmentBot.__init__]

    [__init__] (src/human_2_0_assessment_bot.py, lines 21-85) fixes the
    OpenAI key, builds the business profile from the caller's dict with a
    default for each missing key ([dict.get(k, default)]), declares the
    category and sub-category weights [assessment_categories], and gives
    [st.session_state] its two keys if they are missing.  The profile is
    a record of strings; the caller's dict a [gmap string string]; the
    session state a record of two optional fields (a missing key is
    [None]). *)

From Stdlib Require Import ZArith QArith String.
From stdpp Require Import base gmap strings list.
From S2P Require Import Prelude PyValue.

Local Open Scope string_scope.

(** [d.get(k, default)] on a dict of strings. *)
Definition dict_get (d : gmap string string) (k : string) (default : string) : string :=
  match d !! k with Some v => v | None => default end.

Record business_profile : Type := {
  business_name : string;
  coach_name : string;
  website : string;
  email : string;
  phone : string;
  brand_message : string;
  service_price : string;
  service_price_beta : string;
  service_price_regular : string;
  service_price_premium : string;
  calendar_link : string
}.

(** Lines 34-46. *)
Definition make_business_profile (bp : gmap string string) : business_profile :=
  {| business_name := dict_get bp "business_name" "Drew_Is..";
     coach_name := dict_get bp "coach_name" "Drew";
     website := dict_get bp "website" "https://drewis.online";
     email := dict_get bp "email" "drew@drewis.online";
     phone := dict_get bp "phone" "+1-503-855-6181";
     brand_message := dict_get bp "brand_message"
                        "You're not broken. You're upgrading. It's Time to get dangerous!";
     service_price := dict_get bp "service_price" "$497";
     service_price_beta := "$497 (Beta Launch - Regular $997)";
     service_price_regular := "$997";
     service_price_premium := "$2,497";
     calendar_link := dict_get bp "calendar_link"
                        "https://calendly.com/drew-drewis/product-q-a-session" |}.

(** Lines 29-30: the key the bot uses; its [api_key] argument is not read. *)
Definition bot_api_key (api_key : string) : string := "sk-proj-YOUR-NEW-API-KEY-HERE".

(** Lines 50-79: the declared weights, as (category, weight, sub-weights). *)
Definition assessment_categories : list (string * Q * list (string * Q)) :=
  [("biological_optimization", 0.33,
     [("sleep_quality", 0.25); ("energy_levels", 0.25); ("stress_management", 0.20);
      ("nutrition_optimization", 0.15); ("recovery_protocols", 0.15)]);
   ("mental_architecture", 0.33,
     [("cognitive_performance", 0.30); ("emotional_intelligence", 0.25);
      ("stress_resilience", 0.20); ("mindset_patterns", 0.25)]);
   ("financial_intelligence", 0.34,
     [("wealth_building", 0.30); ("money_mindset", 0.25); ("business_optimization", 0.25);
      ("investment_intelligence", 0.20)])]%Q.

(** [st.session_state]: the two keys the app keeps ([None] when absent). *)
Record session : Type := {
  assessment_data : option (gmap string entry);
  current_step : option string
}.

(** Lines 81-85: give each missing key its initial value. *)
Definition init_session_state (s : session) : session :=
  {| assessment_data := match assessment_data s with Some d => Some d | None => Some ∅ end;
     current_step := match current_step s with Some c => Some c | None => Some "welcome" end |}.

(** Lines 726-736: the profile [main] passes. *)
Definition main_business_profile : gmap string string :=
  dict_of [("business_name", "DrewIs.online"); ("coach_name", "Drew");
           ("website", "https://drewis.online"); ("email", "drew@drewis.online");
           ("phone", "+1-503-855-6181");
           ("brand_message", "You're not broken. You're upgrading. It's Time to get dangerous!");
           ("service_price", "$2,497");
           ("calendar_link", "https://calendly.com/drew-drewis/product-q-a-session")].

