(* ===== verification/Report.v ===== *)
(** * The narrative report: [Human20AssessmentBot.generate_ai_analysis]

    [generate_ai_analysis] (src/human_2_0_assessment_bot.py, lines
    569-613) renders an f-string prompt from the scores and the answers,
    sends it to the OpenAI chat completion API and returns the first
    choice's text; any exception raised by the call or by reading the
    response is caught and replaced by a fixed message naming the
    business e-mail.  Building the prompt is outside the [try]: a missing
    answer or a score that is not a number raises.

    The external service is a Section variable [chat] (any function from
    requests to responses, failure included), and so is [float_repr], the
    shortest round-trip [repr] of a binary64 float, which exact rationals
    cannot express (no float reaches the prompt's answer dicts, whose
    values are the widgets' ints, strings and lists).  Number formatting
    [{x:.1f}] is [format_1f]: round half to even at one decimal, on the
    exact value. *)

From Stdlib Require Import ZArith QArith Qabs Lia String Ascii.
From stdpp Require Import base gmap strings list pretty.
From S2P Require Import Prelude PyValue Forms Scoring Profile.

Local Open Scope string_scope.

(** ** Python text formatting *)

Definition dq : string := String "034"%char EmptyString.
Definition nl : string := String "010"%char EmptyString.

(** Round to the nearest integer, ties to even. *)
Definition round_half_even (q : Q) : Z :=
  let d := Zpos (Qden q) in
  let fl := Z.div (Qnum q) d in
  let r := (Qnum q - fl * d)%Z in
  match Z.compare (2 * r)%Z d with
  | Lt => fl
  | Gt => fl + 1
  | Eq => if Z.even fl then fl else fl + 1
  end%Z.

(** [format(x, '.1f')] on the exact value [x]. *)
Definition format_1f (q : Q) : string :=
  let m := round_half_even (Qabs q * 10) in
  (if Qle_bool 0 q then "" else "-") ++ pretty (m / 10)%Z ++ "." ++ pretty (m mod 10)%Z.

(** [f"{v:.1f}"]: ints and floats only. *)
(** [f"{x:.0f}"] on a float. *)
Definition format_0f (q : Q) : string :=
  (if Qle_bool 0 q then "" else "-") ++ pretty (round_half_even (Qabs q)).

(** [f"{v:.0f}"]: numbers only. *)
Definition format_value_0f (v : pyval) : res string :=
  match v with
  | VInt z => ret (format_0f (inject_Z z))
  | VFloat q => ret (format_0f q)
  | VStr _ => raise ValueError
  | VList _ => raise TypeError
  end.

Definition format_value_1f (v : pyval) : res string :=
  match v with
  | VInt z => ret (format_1f (inject_Z z))
  | VFloat q => ret (format_1f q)
  | VStr _ => raise ValueError
  | VList _ => raise TypeError
  end.

(** A hexadecimal digit, lower case. *)
Definition hex_digit (n : nat) : ascii :=
  ascii_of_nat (if Nat.ltb n 10 then 48 + n else 87 + n)%nat.

(** [repr] of a character inside a str literal quoted by [quote]. *)
Definition repr_char (quote : ascii) (c : ascii) : string :=
  let n := nat_of_ascii c in
  if Ascii.eqb c "\"%char then "\\"
  else if Ascii.eqb c quote then String "\"%char (String c EmptyString)
  else if Ascii.eqb c "010"%char then "\n"
  else if Ascii.eqb c "013"%char then "\r"
  else if Ascii.eqb c "009"%char then "\t"
  else if Nat.ltb n 32 || Nat.eqb n 127 then
    "\x" ++ String (hex_digit (Nat.div n 16)) (String (hex_digit (Nat.modulo n 16)) EmptyString)
  else String c EmptyString.

Fixpoint has_char (c : ascii) (s : string) : bool :=
  match s with EmptyString => false | String c' s' => Ascii.eqb c c' || has_char c s' end.

(** [repr(s)] of a str: single quotes unless [s] has a single quote and
    no double quote. *)
Definition repr_str (s : string) : string :=
  let quote := if has_char "'"%char s && negb (has_char "034"%char s)
               then "034"%char else "'"%char in
  let fix body s := match s with
                    | EmptyString => EmptyString
                    | String c s' => repr_char quote c ++ body s'
                    end in
  String quote (body s ++ String quote EmptyString).

Definition join (sep : string) (l : list string) : string :=
  match l with
  | [] => ""
  | x :: xs => foldl (fun acc y => acc ++ sep ++ y) x xs
  end.

Section Report.

(** The [repr] of a binary64 float, and the chat-completion service. *)
Variable float_repr : Q -> string.

(** [repr(v)]. *)
Definition py_repr (v : pyval) : string :=
  match v with
  | VInt z => pretty z
  | VFloat q => float_repr q
  | VStr s => repr_str s
  | VList l => "[" ++ join ", " (map repr_str l) ++ "]"
  end.

(** [str(v)]: a str is itself, anything else its [repr]. *)
Definition py_str (v : pyval) : string :=
  match v with VStr s => s | _ => py_repr v end.

(** [str(d)] of a dict whose first keys were inserted in the order
    [order]; the other keys follow in the map's order. *)
Definition dict_repr (order : list string) (d : gmap string pyval) : string :=
  let keys := (filter (fun k => is_Some (d !! k)) order
               ++ filter (fun k => k ∉ order) (map fst (map_to_list d)))%list in
  "{" ++ join ", " (omap (fun k => (fun v => repr_str k ++ ": " ++ py_repr v) <$> d !! k) keys)
  ++ "}".

Definition entry_str (order : list string) (e : entry) : string :=
  match e with EVal v => py_str v | EDict d => dict_repr order d end.

(** Lines 573-602: the prompt, rendered left to right. *)
Definition build_prompt (s : scores) (data : gmap string entry) : res string :=
  let* b := format_value_1f (biological s) in
  let* m := format_value_1f (mental s) in
  let* f := format_value_1f (financial s) in
  let* o := format_value_1f (overall s) in
  let* first_name := data_getitem data "first_name" in
  let* last_name := data_getitem data "last_name" in
  let* age := data_getitem data "age" in
  let* occupation := data_getitem data "occupation" in
  let* primary_goal := data_getitem data "primary_goal" in
  let* bio := data_getitem data "biological" in
  let* men := data_getitem data "mental" in
  let* fin := data_getitem data "financial" in
  let ind := "        " in
  ret (String.concat nl
    [""; ind ++ "As a Human 2.0 Optimization Expert, analyze this comprehensive assessment data and provide personalized insights and recommendations.";
     ind; ind ++ "ASSESSMENT SCORES:";
     ind ++ "- Biological Optimization: " ++ b ++ "/100";
     ind ++ "- Mental Architecture: " ++ m ++ "/100  ";
     ind ++ "- Financial Intelligence: " ++ f ++ "/100";
     ind ++ "- Overall Human 2.0 Score: " ++ o ++ "/100";
     ind; ind ++ "PARTICIPANT PROFILE:";
     ind ++ "Name: " ++ entry_str [] first_name ++ " " ++ entry_str [] last_name;
     ind ++ "Age: " ++ entry_str [] age;
     ind ++ "Occupation: " ++ entry_str [] occupation;
     ind ++ "Primary Goal: " ++ entry_str [] primary_goal;
     ind; ind ++ "BIOLOGICAL DATA: " ++ entry_str biological_keys bio;
     ind ++ "MENTAL DATA: " ++ entry_str mental_keys men;
     ind ++ "FINANCIAL DATA: " ++ entry_str financial_keys fin;
     ind; ind ++ "Provide a comprehensive analysis that includes:";
     ind ++ "1. Overall Human 2.0 readiness assessment";
     ind ++ "2. Top 3 optimization opportunities with specific impact potential";
     ind ++ "3. Interconnection analysis (how improving one area will amplify others)";
     ind ++ "4. Personalized " ++ dq ++ "dangerous upgrade" ++ dq ++ " recommendations";
     ind ++ "5. Specific AI tools and strategies that would be most beneficial";
     ind ++ "6. 30-60-90 day optimization roadmap";
     ind; ind ++ "Write in an engaging, motivational tone that aligns with " ++ dq
       ++ "You're not broken. You're upgrading. It's Time to get dangerous!" ++ dq
       ++ " messaging.";
     ind ++ "Be specific and actionable while maintaining authenticity and street-smart wisdom.";
     ind]).

(** The request of lines 605-610. *)
Record chat_request : Type := {
  cr_model : string;
  cr_messages : list (string * string);
  cr_max_tokens : Z;
  cr_temperature : Q
}.

(** What the service gives back: the texts of the response's choices, or
    a failure (an exception of the client: network, timeout, API error). *)
Inductive completion : Type :=
| Response (choices : list string)
| ServiceFailure.

Variable chat : chat_request -> completion.

Definition analysis_request (prompt : string) : chat_request :=
  {| cr_model := "gpt-4"; cr_messages := [("user", prompt)];
     cr_max_tokens := 2000; cr_temperature := 0.7 |}.

(** Line 613. *)
Definition fallback_message (bp : business_profile) : string :=
  "AI analysis temporarily unavailable. Please contact " ++ email bp
  ++ " for your personalized assessment.".

(** Lines 569-613: a failure of the call, or an empty [choices] list
    ([IndexError]), is caught and gives the fallback message. *)
Definition generate_ai_analysis (bp : business_profile) (s : scores)
    (data : gmap string entry) : res string :=
  let* prompt := build_prompt s data in
  ret (match chat (analysis_request prompt) with
       | Response (c :: _) => c
       | _ => fallback_message bp
       end).

End Report.

(** The keys of [assessment_data] the prompt reads. *)
Definition prompt_keys : list string :=
  ["first_name"; "last_name"; "age"; "occupation"; "primary_goal";
   "biological"; "mental"; "financial"].

(** The scores the prompt formats. *)
Definition score_values (s : scores) : list pyval :=
  [biological s; mental s; financial s; overall s].

Lemma format_value_1f_num (v : pyval) (q : Q) :
  num v = Some q -> format_value_1f v = ret (format_1f q).
Proof. destruct v; simpl; intros H; inversion H; reflexivity. Qed.

Lemma format_value_0f_num (v : pyval) (q : Q) :
  num v = Some q -> format_value_0f v = ret (format_0f q).
Proof. destruct v; simpl; intros H; inversion H; reflexivity. Qed.

(** Turn [Forall P [x1; ...; xn]] hypotheses into [P x1], ..., [P xn],
    and [is_Some] ones into equations. *)
Ltac forall_hyps :=
  repeat match goal with
  | H : Forall _ [] |- _ => clear H
  | H : Forall _ (_ :: _) |- _ => inversion_clear H
  | H : is_Some _ |- _ => let x := fresh "x" in destruct H as [x H]
  end.

(** Rewrite every known lookup and number in the goal, then evaluate the
    binds. *)
Ltac run_known :=
  repeat match goal with
  | H : num ?v = Some _ |- context [format_value_1f ?v] =>
      rewrite (format_value_1f_num _ _ H)
  | H : num ?v = Some _ |- context [format_value_0f ?v] =>
      rewrite (format_value_0f_num _ _ H)
  | H : ?d !! ?k = Some _ |- context [data_getitem ?d ?k] =>
      rewrite (data_getitem_some _ _ _ H)
  | |- context [bind (ret _) _] => rewrite bind_ret
  end.

Lemma calculate_scores_values (data : gmap string entry) (s : scores) :
  calculate_scores data = inr s -> Forall (fun v => is_Some (num v)) (score_values s).
Proof.
  intros H. destruct (calculate_scores_bounds data s H) as (b & m & f & Hb & Hm & Hf & _ & _ & _ & Ho & _).
  repeat constructor; eexists; [exact Hb | exact Hm | exact Hf | exact Ho].
Qed.

Section ReportProofs.

Variable float_repr : Q -> string.
Variable chat : chat_request -> completion.

Lemma build_prompt_ok (s : scores) (data : gmap string entry) :
  Forall (fun v => is_Some (num v)) (score_values s) ->
  Forall (fun k => is_Some (data !! k)) prompt_keys ->
  exists p, build_prompt float_repr s data = inr p.
Proof.
  unfold score_values, prompt_keys. intros Hs Hk. forall_hyps.
  unfold build_prompt. run_known. eexists. reflexivity.
Qed.

Lemma generate_ai_analysis_ok (bp : business_profile) (s : scores)
    (data : gmap string entry) :
  Forall (fun v => is_Some (num v)) (score_values s) ->
  Forall (fun k => is_Some (data !! k)) prompt_keys ->
  exists a, generate_ai_analysis float_repr chat bp s data = inr a.
Proof.
  intros Hs Hk. destruct (build_prompt_ok s data Hs Hk) as [p Hp].
  unfold generate_ai_analysis. rewrite Hp, bind_ret. eexists. reflexivity.
Qed.

(** C6 (error): when the four scores are numbers and the eight
    answers the prompt reads are present, [generate_ai_analysis] raises
    no exception whatever the chat service does: it returns the first
    choice of the service's response, and on a failure or an empty
    [choices] list the fallback message that names the business e-mail. *)
Theorem generate_ai_analysis_total (bp : business_profile) (s : scores)
    (data : gmap string entry) :
  Forall (fun v => is_Some (num v)) (score_values s) ->
  Forall (fun k => is_Some (data !! k)) prompt_keys ->
  exists p a, build_prompt float_repr s data = inr p /\
    generate_ai_analysis float_repr chat bp s data = inr a /\
    ((exists rest, chat (analysis_request p) = Response (a :: rest)) \/
     (a = fallback_message bp /\ forall c rest, chat (analysis_request p) <> Response (c :: rest))).
Proof.
  intros Hs Hk. destruct (build_prompt_ok s data Hs Hk) as [p Hp].
  unfold generate_ai_analysis. rewrite Hp, bind_ret.
  exists p, (match chat (analysis_request p) with
             | Response (c :: _) => c | _ => fallback_message bp end).
  split; [reflexivity | split; [reflexivity |]].
  destruct (chat (analysis_request p)) as [[|c rest]|]; [right | left | right];
    eauto; split; congruence.
Qed.

End ReportProofs.

Lemma generate_ai_analysis_total_witness :
  exists p a,
    build_prompt (fun _ => "0.0") {| biological := VInt 50; mental := VInt 60;
                                      financial := VInt 70; overall := VInt 60 |} example_data = inr p /\
    generate_ai_analysis (fun _ => "0.0") (fun _ => ServiceFailure) (make_business_profile main_business_profile)
      {| biological := VInt 50; mental := VInt 60; financial := VInt 70; overall := VInt 60 |}
      example_data = inr a /\
    ((exists rest, ServiceFailure = Response (a :: rest)) \/
     (a = fallback_message (make_business_profile main_business_profile) /\
      forall c rest, ServiceFailure <> Response (c :: rest))).
Proof.
  apply (generate_ai_analysis_total (fun _ => "0.0") (fun _ => ServiceFailure));
    apply (bool_decide_unpack _); vm_compute; reflexivity.
Defined.
