(* ===== verification/Flow.v ===== *)
(** * The survey flow: [main] and the five screens

    A Streamlit script reruns from the top on every interaction; the
    state that survives a run is [st.session_state] ([Profile.session]:
    [assessment_data] and [current_step]).  One run of [main]
    (src/human_2_0_assessment_bot.py, lines 717-756) builds the bot (whose
    [__init__] gives the session its missing keys) and calls the handler
    of the current step; the handler reads the user's interaction on that
    screen ([event]: a click or a form submission whose widget values are
    in their domains, [event_ok]) and returns the new session and what it
    shows ([output]).  An exception ends the run with the session as it
    was: no handler changes the session before its last fallible step.

    [main_run] is one run, [run_events] a sequence of runs, and
    [reachable] the sessions a participant can produce from a fresh one.
    The external chat service and the float [repr] are the parameters of
    [Report]. *)

From Stdlib Require Import ZArith QArith String.
From stdpp Require Import base gmap strings list.
From S2P Require Import Prelude PyValue Tables Forms Scoring Spec Refinement Profile Report.

Local Open Scope string_scope.

(** What the participant did during a run, on the screen shown. *)
Inductive event : Type :=
| NoInput
| ClickBegin
| SubmitBasic (f : basic_form)
| SubmitBio (f : bio_form)
| SubmitMental (f : mental_form)
| SubmitFinancial (f : financial_form)
| ClickBook
| ClickEmail
| ClickReset.

(** Widgets only return values of their domains. *)
Definition event_ok (e : event) : bool :=
  match e with
  | SubmitBasic f => basic_form_ok f
  | SubmitBio f => bio_form_ok f
  | SubmitMental f => mental_form_ok f
  | SubmitFinancial f => financial_form_ok f
  | _ => true
  end.

(** What a run shows that carries data (markdown and charts aside). *)
Inductive output : Type :=
| ShowError (msg : string)
| ShowResults (sc : scores) (metrics : list string) (analysis : string)
| ShowLink (url : string)
| ShowSuccess (msg : string).

(** How a run ends: [st.rerun()] discards what the run showed and starts
    the script again at once. *)
Inductive run_end : Type :=
| Rerun
| Done (out : list output).

Definition fresh_session : session := {| assessment_data := None; current_step := None |}.

Definition set_step (s : session) (step : string) : session :=
  {| assessment_data := assessment_data s; current_step := Some step |}.

Definition goto (d : gmap string entry) (step : string) : session :=
  {| assessment_data := Some d; current_step := Some step |}.

(** Line 742: the profile of the bot [main] builds. *)
Definition bot_profile : business_profile := make_business_profile main_business_profile.

Definition metric (v : pyval) : res string :=
  let* t := format_value_0f v in ret (t ++ "/100").

Section Flow.

Variable float_repr : Q -> string.
Variable chat : chat_request -> completion.

(** Lines 87-116: the "Begin" button moves to the basic information. *)
Definition display_welcome_screen (s : session) (e : event) : res (session * run_end) :=
  match e with
  | ClickBegin => ret (set_step s "basic_info", Rerun)
  | _ => ret (s, Done [])
  end.

(** Lines 118-170: the three starred fields are required; [update] merges
    the form into the data already there. *)
Definition collect_basic_information (s : session) (e : event) : res (session * run_end) :=
  match e with
  | SubmitBasic f =>
      if basic_required_ok f then
        match assessment_data s with
        | Some d => ret (goto (basic_info_data f ∪ d) "biological_assessment", Rerun)
        | None => raise AttributeError
        end
      else ret (s, Done [ShowError "Please fill in all required fields (marked with *)"])
  | _ => ret (s, Done [])
  end.

(** Lines 172-259. *)
Definition biological_optimization_assessment (s : session) (e : event)
    : res (session * run_end) :=
  match e with
  | SubmitBio f =>
      match assessment_data s with
      | Some d => ret (goto (<["biological" := EDict (biological_data f)]> d) "mental_assessment", Rerun)
      | None => raise AttributeError
      end
  | _ => ret (s, Done [])
  end.

(** Lines 261-350. *)
Definition mental_architecture_assessment (s : session) (e : event)
    : res (session * run_end) :=
  match e with
  | SubmitMental f =>
      match assessment_data s with
      | Some d => ret (goto (<["mental" := EDict (mental_data f)]> d) "financial_assessment", Rerun)
      | None => raise AttributeError
      end
  | _ => ret (s, Done [])
  end.

(** Lines 352-476. *)
Definition financial_intelligence_assessment (s : session) (e : event)
    : res (session * run_end) :=
  match e with
  | SubmitFinancial f =>
      match assessment_data s with
      | Some d => ret (goto (<["financial" := EDict (financial_data f)]> d) "generate_results", Rerun)
      | None => raise AttributeError
      end
  | _ => ret (s, Done [])
  end.

(** Lines 615-715: scores, analysis and the four metrics are computed on
    every run of the results screen, before any of its buttons is read. *)
Definition display_results (s : session) (e : event) : res (session * run_end) :=
  match assessment_data s with
  | None => raise AttributeError
  | Some d =>
      let* sc := calculate_scores d in
      let* analysis := generate_ai_analysis float_repr chat bot_profile sc d in
      let* m1 := metric (biological sc) in
      let* m2 := metric (mental sc) in
      let* m3 := metric (financial sc) in
      let* m4 := metric (overall sc) in
      let shown := ShowResults sc [m1; m2; m3; m4] analysis in
      match e with
      | ClickBook => ret (s, Done [shown; ShowLink (calendar_link bot_profile)])
      | ClickEmail =>
          let* em := data_getitem d "email" in
          ret (s, Done [shown; ShowSuccess ("Your complete Human 2.0 Assessment Report has been sent to "
                                            ++ entry_str float_repr [] em)])
      | ClickReset => ret (fresh_session, Rerun)
      | _ => ret (s, Done [shown])
      end
  end.

(** Lines 717-756: one run of the script. *)
Definition main_run (s0 : session) (e : event) : res (session * run_end) :=
  let s := init_session_state s0 in
  match current_step s with
  | None => raise AttributeError
  | Some step =>
      if String.eqb step "welcome" then display_welcome_screen s e
      else if String.eqb step "basic_info" then collect_basic_information s e
      else if String.eqb step "biological_assessment" then biological_optimization_assessment s e
      else if String.eqb step "mental_assessment" then mental_architecture_assessment s e
      else if String.eqb step "financial_assessment" then financial_intelligence_assessment s e
      else if String.eqb step "generate_results" then display_results s e
      else ret (s, Done [])
  end.

Definition shown (r : run_end) : list output :=
  match r with Rerun => [] | Done out => out end.

(** One interaction: a run on the participant's input, and the run
    [st.rerun()] asks for, which reads no input. *)
Definition interact (s : session) (e : event) : res (session * list output) :=
  let* r := main_run s e in
  match r.2 with
  | Done out => ret (r.1, out)
  | Rerun => let* r' := main_run r.1 NoInput in ret (r'.1, shown r'.2)
  end.

(** Successive interactions; the outputs are those of the last one. *)
Fixpoint run_events (s : session) (es : list event) : res (session * list output) :=
  match es with
  | [] => ret (s, [])
  | [e] => interact s e
  | e :: es' => let* r := interact s e in run_events r.1 es'
  end.

(** The sessions a participant can produce. *)
Inductive reachable : session -> Prop :=
| reachable_fresh : reachable fresh_session
| reachable_step (s s' : session) (e : event) (out : list output) :
    reachable s -> event_ok e = true -> interact s e = inr (s', out) -> reachable s'.

End Flow.

(** ** The stages of an assessment *)

Definition basic_valid (b : basic_form) : Prop :=
  basic_form_ok b = true /\ basic_required_ok b = true.

Definition data_bio (b : basic_form) (fb : bio_form) : gmap string entry :=
  <["biological" := EDict (biological_data fb)]> (basic_info_data b ∪ ∅).

Definition data_mental (b : basic_form) (fb : bio_form) (fm : mental_form)
    : gmap string entry :=
  <["mental" := EDict (mental_data fm)]> (data_bio b fb).

Definition data_results (b : basic_form) (fb : bio_form) (fm : mental_form)
    (ff : financial_form) : gmap string entry :=
  <["financial" := EDict (financial_data ff)]> (data_mental b fb fm).

(** The data a session holds at each step: the forms submitted so far. *)
Inductive stage : string -> gmap string entry -> Prop :=
| stage_welcome : stage "welcome" ∅
| stage_basic : stage "basic_info" ∅
| stage_bio (b : basic_form) :
    basic_valid b -> stage "biological_assessment" (basic_info_data b ∪ ∅)
| stage_mental (b : basic_form) (fb : bio_form) :
    basic_valid b -> bio_form_ok fb = true -> stage "mental_assessment" (data_bio b fb)
| stage_financial (b : basic_form) (fb : bio_form) (fm : mental_form) :
    basic_valid b -> bio_form_ok fb = true -> mental_form_ok fm = true ->
    stage "financial_assessment" (data_mental b fb fm)
| stage_results (b : basic_form) (fb : bio_form) (fm : mental_form) (ff : financial_form) :
    basic_valid b -> bio_form_ok fb = true -> mental_form_ok fm = true ->
    financial_form_ok ff = true -> stage "generate_results" (data_results b fb fm ff).

(** A session is fresh or at a step with the data of that step. *)
Definition flow_inv (s : session) : Prop :=
  s = fresh_session \/ exists step d, s = goto d step /\ stage step d.

(** ** Concrete runs *)

(** A chat service that is never reachable. *)
Definition offline_chat (r : chat_request) : completion := ServiceFailure.

(** The interactions of a participant who completes the assessment. *)
Definition example_events : list event :=
  [NoInput; ClickBegin; SubmitBasic example_basic_form; SubmitBio example_bio_form;
   SubmitMental example_mental_form; SubmitFinancial example_financial_form].

Definition example_results_session : session :=
  goto (data_results example_basic_form example_bio_form example_mental_form
          example_financial_form) "generate_results".

Definition example_outputs : list output :=
  match run_events format_1f offline_chat fresh_session example_events with
  | inr (_, out) => out
  | inl _ => []
  end.

(** The example basic form with the first name left empty. *)
Definition example_nameless_form : basic_form :=
  {| bf_first_name := ""; bf_email := bf_email example_basic_form;
     bf_age := bf_age example_basic_form; bf_last_name := bf_last_name example_basic_form;
     bf_phone := bf_phone example_basic_form; bf_occupation := bf_occupation example_basic_form;
     bf_primary_goal := bf_primary_goal example_basic_form;
     bf_custom_goal := bf_custom_goal example_basic_form |}.

Create Rewrite HintDb flow_rw.

Lemma main_run_welcome (d : gmap string entry) (fr : Q -> string) ch (e : event) :
  main_run fr ch (goto d "welcome") e = display_welcome_screen (goto d "welcome") e.
Proof. reflexivity. Qed.

Lemma main_run_basic (d : gmap string entry) (fr : Q -> string) ch (e : event) :
  main_run fr ch (goto d "basic_info") e = collect_basic_information (goto d "basic_info") e.
Proof. reflexivity. Qed.

Lemma main_run_bio (d : gmap string entry) (fr : Q -> string) ch (e : event) :
  main_run fr ch (goto d "biological_assessment") e
  = biological_optimization_assessment (goto d "biological_assessment") e.
Proof. reflexivity. Qed.

Lemma main_run_mental (d : gmap string entry) (fr : Q -> string) ch (e : event) :
  main_run fr ch (goto d "mental_assessment") e
  = mental_architecture_assessment (goto d "mental_assessment") e.
Proof. reflexivity. Qed.

Lemma main_run_financial (d : gmap string entry) (fr : Q -> string) ch (e : event) :
  main_run fr ch (goto d "financial_assessment") e
  = financial_intelligence_assessment (goto d "financial_assessment") e.
Proof. reflexivity. Qed.

Lemma main_run_results (d : gmap string entry) (fr : Q -> string) ch (e : event) :
  main_run fr ch (goto d "generate_results") e = display_results fr ch (goto d "generate_results") e.
Proof. reflexivity. Qed.

Lemma main_run_fresh (fr : Q -> string) ch (e : event) :
  main_run fr ch fresh_session e = display_welcome_screen (goto ∅ "welcome") e.
Proof. reflexivity. Qed.

#[export] Hint Rewrite main_run_welcome main_run_basic main_run_bio main_run_mental
  main_run_financial main_run_results main_run_fresh : flow_rw.

Section FlowProofs.

Variable float_repr : Q -> string.
Variable chat : chat_request -> completion.

Lemma results_data_holds (b : basic_form) (fb : bio_form) (fm : mental_form)
    (ff : financial_form) :
  data_holds (data_results b fb fm ff) fb fm ff.
Proof. repeat split. Qed.

Lemma results_data_keys (b : basic_form) (fb : bio_form) (fm : mental_form)
    (ff : financial_form) :
  Forall (fun k => is_Some (data_results b fb fm ff !! k)) prompt_keys.
Proof. repeat constructor; eexists; reflexivity. Qed.

Lemma results_data_email (b : basic_form) (fb : bio_form) (fm : mental_form)
    (ff : financial_form) :
  data_results b fb fm ff !! "email" = Some (EVal (VStr (bf_email b))).
Proof. reflexivity. Qed.

(** The results screen on the data of a completed assessment: the scores
    are those of the typed specification, and each button does what lines
    677-715 say. *)
Lemma display_results_ok (b : basic_form) (fb : bio_form) (fm : mental_form)
    (ff : financial_form) :
  basic_valid b -> bio_form_ok fb = true -> mental_form_ok fm = true ->
  financial_form_ok ff = true ->
  exists a sc ms an, Spec.answers_ranges a /\ answers_match a fb fm ff /\
    scores_match sc (Spec.score (code_view a)) /\
    calculate_scores (data_results b fb fm ff) = inr sc /\
    generate_ai_analysis float_repr chat bot_profile sc (data_results b fb fm ff) = inr an /\
    forall e, main_run float_repr chat (goto (data_results b fb fm ff) "generate_results") e =
      inr (match e with
           | ClickBook => (goto (data_results b fb fm ff) "generate_results",
                           Done [ShowResults sc ms an; ShowLink (calendar_link bot_profile)])
           | ClickEmail => (goto (data_results b fb fm ff) "generate_results",
                            Done [ShowResults sc ms an; ShowSuccess
                              ("Your complete Human 2.0 Assessment Report has been sent to "
                               ++ bf_email b)])
           | ClickReset => (fresh_session, Rerun)
           | _ => (goto (data_results b fb fm ff) "generate_results", Done [ShowResults sc ms an])
           end).
Proof.
  intros Hb Hfb Hfm Hff.
  destruct (calculate_scores_forms fb fm ff _ Hfb Hfm Hff (results_data_holds b fb fm ff))
    as (a & sc & Ra & Ma & Hc & Sm).
  destruct (generate_ai_analysis_ok float_repr chat bot_profile sc _
              (calculate_scores_values _ _ Hc) (results_data_keys b fb fm ff)) as [an Han].
  destruct (calculate_scores_bounds _ sc Hc) as (x1 & x2 & x3 & H1 & H2 & H3 & _ & _ & _ & H4 & _).
  pose proof (results_data_email b fb fm ff) as He.
  eexists a, sc, _, an. do 5 (split; [assumption |]).
  intros e. autorewrite with flow_rw. unfold display_results, metric. cbn [assessment_data goto].
  rewrite Hc, bind_ret, Han, bind_ret. run_known.
  destruct e; reflexivity.
Qed.

(** Close a goal [exists s' r, main_run .. = inr (s', r) /\ flow_inv s']
    once the run has been evaluated. *)
Ltac flow_close :=
  eexists _, _; split; [reflexivity |];
  first [ left; reflexivity
        | right; eexists _, _; split; [reflexivity |];
          econstructor; unfold basic_valid in *; intuition auto ].

(** One run from a session of the invariant, on an input its widgets can
    produce, raises nothing and lands in the invariant. *)
Lemma main_run_step (s : session) (e : event) :
  flow_inv s -> event_ok e = true ->
  exists s' r, main_run float_repr chat s e = inr (s', r) /\ flow_inv s'.
Proof.
  intros [-> | (step & d & -> & Hst)] He; autorewrite with flow_rw.
  - destruct e; flow_close.
  - destruct Hst as [ | | b Hb | b fb Hb Hfb | b fb fm Hb Hfb Hfm | b fb fm ff Hb Hfb Hfm Hff];
      autorewrite with flow_rw.
    + destruct e; flow_close.
    + destruct e; cbn; try flow_close.
      destruct (basic_required_ok f) eqn:Hr; flow_close.
    + destruct e; cbn in He |- *; flow_close.
    + destruct e; cbn in He |- *; flow_close.
    + destruct e; cbn in He |- *; flow_close.
    + destruct (display_results_ok b fb fm ff Hb Hfb Hfm Hff)
        as (a & sc & ms & an & _ & _ & _ & _ & _ & Hrun).
      rewrite <- main_run_results, (Hrun e). destruct e; flow_close.
Qed.

Lemma interact_done (s s1 : session) (e : event) (out : list output) :
  main_run float_repr chat s e = inr (s1, Done out) ->
  interact float_repr chat s e = inr (s1, out).
Proof. intros H. unfold interact. rewrite H. reflexivity. Qed.

Lemma interact_rerun (s s1 s2 : session) (e : event) (r : run_end) :
  main_run float_repr chat s e = inr (s1, Rerun) ->
  main_run float_repr chat s1 NoInput = inr (s2, r) ->
  interact float_repr chat s e = inr (s2, shown r).
Proof. intros H1 H2. unfold interact. rewrite H1, bind_ret. cbn [fst snd]. rewrite H2. reflexivity. Qed.

Lemma interact_step (s : session) (e : event) :
  flow_inv s -> event_ok e = true ->
  exists s' out, interact float_repr chat s e = inr (s', out) /\ flow_inv s'.
Proof.
  intros Hs He. destruct (main_run_step s e Hs He) as (s1 & [|out] & H1 & Hs1).
  - destruct (main_run_step s1 NoInput Hs1 eq_refl) as (s2 & r2 & H2 & Hs2).
    rewrite (interact_rerun _ _ _ _ _ H1 H2). eauto.
  - rewrite (interact_done _ _ _ _ H1). eauto.
Qed.

Lemma interact_inv (s s' : session) (e : event) (out : list output) :
  flow_inv s -> event_ok e = true -> interact float_repr chat s e = inr (s', out) -> flow_inv s'.
Proof.
  intros Hs He H. destruct (interact_step s e Hs He) as (s2 & o2 & H2 & Hs2).
  rewrite H in H2. injection H2 as -> ->. exact Hs2.
Qed.

Lemma reachable_inv (s : session) : reachable float_repr chat s -> flow_inv s.
Proof. induction 1; [left; reflexivity | eauto using interact_inv]. Qed.

Lemma run_events_reachable (s s' : session) (es : list event) (out : list output) :
  reachable float_repr chat s -> Forall (fun e => event_ok e = true) es ->
  run_events float_repr chat s es = inr (s', out) -> reachable float_repr chat s'.
Proof.
  revert s. induction es as [|e es IH]; intros s Hs Hes H; cbn [run_events] in H.
  - injection H as -> _. exact Hs.
  - inversion_clear Hes as [|? ? He Hes'].
    destruct es as [|e' es'].
    + eapply reachable_step; eauto.
    + inv_bind. destruct a as [s1 o1]. eapply IH; [eapply reachable_step |..]; eauto.
Qed.

Lemma reachable_results (s : session) :
  reachable float_repr chat s -> current_step s = Some "generate_results" ->
  exists b fb fm ff, basic_valid b /\ bio_form_ok fb = true /\ mental_form_ok fm = true /\
    financial_form_ok ff = true /\ s = goto (data_results b fb fm ff) "generate_results".
Proof.
  intros Hs Hstep. destruct (reachable_inv s Hs) as [-> | (step & d & -> & Hst)];
    [discriminate |].
  injection Hstep as ->. inversion Hst; subst.
  do 4 eexists. repeat (split; [eassumption |]). reflexivity.
Qed.

(** C4 (invariant): every session a participant can reach is either
    fresh or at one of the six steps of [main], holding exactly the data of
    the forms submitted before that step: nothing at the welcome and basic
    information screens, the basic information after it is accepted, then
    the biological, mental and financial answer dicts in that order. *)
Theorem reachable_flow_inv (s : session) : reachable float_repr chat s -> flow_inv s.
Proof. exact (reachable_inv s). Qed.

(** C3 (safety): from every reachable session, an interaction on
    values the widgets can produce raises no exception (no [KeyError],
    [TypeError], [ZeroDivisionError] or [AttributeError] in a handler,
    in the scoring, in the prompt or in the metrics), and its session is
    reachable again. *)
Theorem reachable_no_exception (s : session) (e : event) :
  reachable float_repr chat s -> event_ok e = true ->
  exists s' out, interact float_repr chat s e = inr (s', out) /\ reachable float_repr chat s'.
Proof.
  intros Hs He. destruct (interact_step s e (reachable_inv s Hs) He) as (s' & out & H & _).
  exists s', out. split; [exact H | eapply reachable_step; eauto].
Qed.

(** C5 (liveness): a participant who begins, submits an accepted basic
    form and three valid assessment forms reaches the results screen in
    six interactions; it shows scores that are exactly the specification's
    scores of the answers (wake-up question read as "Sometimes"), the four
    metrics and the analysis. *)
Theorem assessment_reaches_results (b : basic_form) (fb : bio_form) (fm : mental_form)
    (ff : financial_form) :
  basic_valid b -> bio_form_ok fb = true -> mental_form_ok fm = true ->
  financial_form_ok ff = true ->
  exists a sc ms an,
    run_events float_repr chat fresh_session
      [NoInput; ClickBegin; SubmitBasic b; SubmitBio fb; SubmitMental fm; SubmitFinancial ff]
    = inr (goto (data_results b fb fm ff) "generate_results", [ShowResults sc ms an]) /\
    Spec.answers_ranges a /\ answers_match a fb fm ff /\
    scores_match sc (Spec.score (code_view a)).
Proof.
  intros Hb Hfb Hfm Hff.
  destruct (display_results_ok b fb fm ff Hb Hfb Hfm Hff)
    as (a & sc & ms & an & Ra & Ma & Sm & _ & _ & Hrun).
  exists a, sc, ms, an. split; [| auto]. cbn [run_events].
  rewrite (interact_done _ (goto ∅ "welcome") _ []) by reflexivity. rewrite bind_ret.
  rewrite (interact_rerun _ (goto ∅ "basic_info") (goto ∅ "basic_info") _ (Done []))
    by reflexivity. rewrite bind_ret.
  destruct Hb as [_ Hr].
  rewrite (interact_rerun _ (goto (basic_info_data b ∪ ∅) "biological_assessment") (goto (basic_info_data b ∪ ∅) "biological_assessment") _ (Done []));
    [| autorewrite with flow_rw; cbn; rewrite Hr; reflexivity | reflexivity].
  rewrite bind_ret.
  rewrite (interact_rerun _ (goto (data_bio b fb) "mental_assessment") (goto (data_bio b fb) "mental_assessment") _ (Done []))
    by reflexivity. rewrite bind_ret.
  rewrite (interact_rerun _ (goto (data_mental b fb fm) "financial_assessment") (goto (data_mental b fb fm) "financial_assessment") _ (Done []))
    by reflexivity. rewrite bind_ret.
  cbn [fst]. apply (interact_rerun _ (goto (data_results b fb fm ff) "generate_results")
                      (goto (data_results b fb fm ff) "generate_results") _
                      (Done [ShowResults sc ms an]));
    [reflexivity | exact (Hrun NoInput)].
Qed.

(** C12 (functional): on every reachable results screen, "Take
    Assessment Again" empties the session, and the run that follows shows
    the welcome screen with no data. *)
Theorem reset_returns_to_welcome (s : session) :
  reachable float_repr chat s -> current_step s = Some "generate_results" ->
  interact float_repr chat s ClickReset = inr (goto ∅ "welcome", []).
Proof.
  intros Hs Hstep. destruct (reachable_results s Hs Hstep) as (b & fb & fm & ff & Hb & Hfb & Hfm & Hff & ->).
  destruct (display_results_ok b fb fm ff Hb Hfb Hfm Hff) as (a & sc & ms & an & _ & _ & _ & _ & _ & Hrun).
  exact (interact_rerun _ _ _ _ _ (Hrun ClickReset) eq_refl).
Qed.

(** C11 (error): a basic form with an empty first name, last name or
    e-mail is refused: the session is unchanged and the screen shows the
    required-fields error. *)
Theorem missing_required_field_rejected (d : gmap string entry) (f : basic_form) :
  (bf_first_name f = "" \/ bf_last_name f = "" \/ bf_email f = "") ->
  interact float_repr chat (goto d "basic_info") (SubmitBasic f)
  = inr (goto d "basic_info", [ShowError "Please fill in all required fields (marked with *)"]).
Proof.
  intros Hempty. apply interact_done. autorewrite with flow_rw. cbn.
  replace (basic_required_ok f) with false; [reflexivity |].
  unfold basic_required_ok. destruct Hempty as [-> | [-> | ->]]; cbn;
    [| rewrite andb_false_r ..]; reflexivity.
Qed.

(** C13 (functional): on every reachable results screen the
    buttons read the session: "Email My Results" confirms to the e-mail of
    the basic form, "Book My Strategy Session" links the profile's calendar,
    and both leave the session and the shown results as they were. *)
Theorem results_buttons (s : session) :
  reachable float_repr chat s -> current_step s = Some "generate_results" ->
  exists b fb fm ff sc ms an,
    assessment_data s = Some (data_results b fb fm ff) /\
    interact float_repr chat s NoInput = inr (s, [ShowResults sc ms an]) /\
    interact float_repr chat s ClickEmail
    = inr (s, [ShowResults sc ms an; ShowSuccess
                 ("Your complete Human 2.0 Assessment Report has been sent to " ++ bf_email b)]) /\
    interact float_repr chat s ClickBook
    = inr (s, [ShowResults sc ms an;
               ShowLink "https://calendly.com/drew-drewis/product-q-a-session"]).
Proof.
  intros Hs Hstep. destruct (reachable_results s Hs Hstep) as (b & fb & fm & ff & Hb & Hfb & Hfm & Hff & ->).
  destruct (display_results_ok b fb fm ff Hb Hfb Hfm Hff) as (a & sc & ms & an & _ & _ & _ & _ & _ & Hrun).
  exists b, fb, fm, ff, sc, ms, an.
  split; [reflexivity |]. split; [|split]; apply interact_done; apply Hrun.
Qed.

End FlowProofs.

Lemma example_reachable : reachable format_1f offline_chat example_results_session.
Proof.
  apply (run_events_reachable _ _ fresh_session _ example_events example_outputs);
    [constructor | repeat constructor | vm_compute; reflexivity].
Qed.

Lemma reachable_flow_inv_witness : flow_inv example_results_session.
Proof. apply (reachable_flow_inv format_1f offline_chat). exact example_reachable. Defined.

Lemma reachable_no_exception_witness :
  exists s' out, interact format_1f offline_chat example_results_session ClickEmail = inr (s', out) /\
    reachable format_1f offline_chat s'.
Proof. apply (reachable_no_exception _ _ _ ClickEmail example_reachable). reflexivity. Defined.

Lemma assessment_reaches_results_witness :
  exists a sc ms an,
    run_events format_1f offline_chat fresh_session example_events
    = inr (example_results_session, [ShowResults sc ms an]) /\
    Spec.answers_ranges a /\ answers_match a example_bio_form example_mental_form example_financial_form /\
    scores_match sc (Spec.score (code_view a)).
Proof.
  apply (assessment_reaches_results format_1f offline_chat);
    [split; reflexivity | reflexivity | reflexivity | reflexivity].
Defined.

Lemma reset_returns_to_welcome_witness :
  interact format_1f offline_chat example_results_session ClickReset = inr (goto ∅ "welcome", []).
Proof. apply (reset_returns_to_welcome _ _ _ example_reachable). reflexivity. Defined.

Lemma missing_required_field_rejected_witness :
  interact format_1f offline_chat (goto ∅ "basic_info") (SubmitBasic example_nameless_form)
  = inr (goto ∅ "basic_info", [ShowError "Please fill in all required fields (marked with *)"]).
Proof. apply missing_required_field_rejected. left. reflexivity. Defined.

Lemma results_buttons_witness :
  exists b fb fm ff sc ms an,
    assessment_data example_results_session = Some (data_results b fb fm ff) /\
    interact format_1f offline_chat example_results_session NoInput
    = inr (example_results_session, [ShowResults sc ms an]) /\
    interact format_1f offline_chat example_results_session ClickEmail
    = inr (example_results_session, [ShowResults sc ms an; ShowSuccess
                 ("Your complete Human 2.0 Assessment Report has been sent to " ++ bf_email b)]) /\
    interact format_1f offline_chat example_results_session ClickBook
    = inr (example_results_session, [ShowResults sc ms an;
               ShowLink "https://calendly.com/drew-drewis/product-q-a-session"]).
Proof. apply (results_buttons _ _ _ example_reachable). reflexivity. Defined.
